(** * Smart Life Hub: record managers, spending insights and the restaurant filter

    A shallow embedding of [smartlife_automation.py] (ReminderManager,
    ExpenseManager, BudgetManager, GoalManager, the dashboard restaurant
    search) and of [filter_bangalore_csv.py] (load_data, filter_restaurants),
    followed by the properties proved about them.

    Conventions of the embedding.
    - Amounts are exact rationals ([Q]).  The binary rounding of Python floats
      is not modelled; the special values that numpy's division produces on a
      zero divisor (inf, nan) are, see [num].
    - A JSON object is an association list in insertion order, as a Python
      dict is, with scalar values; a JSON file is [option] of its content,
      [None] when the file does not exist.
    - A data frame is the list of its rows.  The cells of the Item and Amount
      columns are taken as read; the cells of the Date and rating columns
      keep the text of the file until the code converts them.
    - Dates are the (year, month, day) triples of [datetime.date], with the
      ordinal arithmetic of CPython's [datetime] module.
    - The clock ([datetime.date.today()], [datetime.datetime.now()]) is an
      explicit argument, read once per call.
    - Library parsers ([strptime], [pd.to_datetime], [pd.to_numeric], the
      regular expression compiler) are parameters of the functions that call
      them.  Strings are byte strings; [lower] and [strip] act on ASCII.
    - Formatted messages are constructors carrying the interpolated values. *)

From Stdlib Require Import ZArith QArith List String Ascii Bool Lia Lqa.
Import ListNotations.
Local Open Scope Z_scope.

(* ================================================================== *)
(** * Exceptions *)

Inductive exn : Type :=
  | KeyError (key : string)
  | TypeError
  | ValueError
  | OverflowError
  | ReError.

Inductive result (A : Type) : Type :=
  | Ok (a : A)
  | Raise (e : exn).
Arguments Ok {A} a.
Arguments Raise {A} e.

Definition bind {A B : Type} (r : result A) (k : A -> result B) : result B :=
  match r with
  | Ok a => k a
  | Raise e => Raise e
  end.

Declare Scope result_scope.
Delimit Scope result_scope with result.
Notation "x <- c ;; k" := (bind c (fun x => k))
  (at level 100, c at next level, right associativity) : result_scope.

(** [try: ... except: handler] with a bare [except]. *)
Definition try_except {A : Type} (body : result A) (handler : result A) : result A :=
  match body with
  | Ok a => Ok a
  | Raise _ => handler
  end.

(* ================================================================== *)
(** * Numbers *)

(** The value of a numpy float division: a finite number, or one of the
    special values a zero divisor yields. *)
Inductive num : Type :=
  | Fin (q : Q)
  | PosInf
  | NegInf
  | NaN.

Definition Qgeb (a b : Q) : bool := Qle_bool b a.
Definition Qgtb (a b : Q) : bool := negb (Qle_bool a b).

Definition Qeqb0 (a : Q) : bool := Qeq_bool a 0.

(** [a / b] on numpy floats. *)
Definition fdiv (a b : Q) : num :=
  if Qeqb0 b then
    if Qgtb a 0 then PosInf
    else if Qgtb 0 a then NegInf
    else NaN
  else Fin (a / b).

(** [x * k] for a positive finite constant [k]. *)
Definition fmul_pos (x : num) (k : Q) : num :=
  match x with
  | Fin q => Fin (q * k)
  | PosInf => PosInf
  | NegInf => NegInf
  | NaN => NaN
  end.

(** [x >= k] and [x < k]; every comparison with nan is False. *)
Definition num_geb (x : num) (k : Q) : bool :=
  match x with
  | Fin q => Qgeb q k
  | PosInf => true
  | NegInf => false
  | NaN => false
  end.


Definition Qsum (l : list Q) : Q := fold_left Qplus l 0%Q.

(* ================================================================== *)
(** * The calendar of Python's [datetime] *)

Module Calendar.

Record date : Type := mkdate { year : Z; month : Z; day : Z }.

Record datetime : Type := mkdatetime {
  dt_date : date;
  hour : Z;
  minute : Z;
  second : Z;
  microsecond : Z
}.

Definition is_leap (y : Z) : bool :=
  (y mod 4 =? 0) && (negb (y mod 100 =? 0) || (y mod 400 =? 0)).

(** [_DAYS_IN_MONTH] and [_DAYS_BEFORE_MONTH], indexed by month 1..12. *)
Definition DAYS_IN_MONTH (m : Z) : Z :=
  match m with
  | 1 => 31 | 2 => 28 | 3 => 31 | 4 => 30 | 5 => 31 | 6 => 30
  | 7 => 31 | 8 => 31 | 9 => 30 | 10 => 31 | 11 => 30 | 12 => 31
  | _ => 0
  end.

Definition DAYS_BEFORE_MONTH (m : Z) : Z :=
  match m with
  | 1 => 0 | 2 => 31 | 3 => 59 | 4 => 90 | 5 => 120 | 6 => 151
  | 7 => 181 | 8 => 212 | 9 => 243 | 10 => 273 | 11 => 304 | 12 => 334
  | _ => 0
  end.

Definition days_in_month (y m : Z) : Z :=
  if (m =? 2) && is_leap y then 29 else DAYS_IN_MONTH m.

Definition days_before_year (y : Z) : Z :=
  let y1 := y - 1 in
  y1 * 365 + y1 / 4 - y1 / 100 + y1 / 400.

Definition days_before_month (y m : Z) : Z :=
  DAYS_BEFORE_MONTH m + (if (2 <? m) && is_leap y then 1 else 0).

Definition ymd2ord (y m d : Z) : Z :=
  days_before_year y + days_before_month y m + d.

Definition toordinal (d : date) : Z := ymd2ord (year d) (month d) (day d).

Definition DI400Y : Z := 146097.
Definition DI100Y : Z := 36524.
Definition DI4Y : Z := 1461.

(** The tail of [_ord2ymd]: month and day of the [n]-th day (from 0) of a
    year. *)
Definition month_day (n : Z) (leapyear : bool) : Z * Z :=
  let m := Z.shiftr (n + 50) 5 in
  let preceding := DAYS_BEFORE_MONTH m + (if (2 <? m) && leapyear then 1 else 0) in
  if n <? preceding then
    let m := m - 1 in
    let preceding :=
      preceding - (DAYS_IN_MONTH m + (if (m =? 2) && leapyear then 1 else 0)) in
    (m, n - preceding + 1)
  else (m, n - preceding + 1).

(** [_ord2ymd]. *)
Definition ord2ymd (n : Z) : date :=
  let n := n - 1 in
  let n400 := n / DI400Y in
  let n := n mod DI400Y in
  let y := n400 * 400 + 1 in
  let n100 := n / DI100Y in
  let n := n mod DI100Y in
  let n4 := n / DI4Y in
  let n := n mod DI4Y in
  let n1 := n / 365 in
  let n := n mod 365 in
  let y := y + n100 * 100 + n4 * 4 + n1 in
  if (n1 =? 4) || (n100 =? 4) then mkdate (y - 1) 12 31
  else
    let leapyear := (n1 =? 3) && (negb (n4 =? 24) || (n100 =? 3)) in
    let '(m, d) := month_day n leapyear in
    mkdate y m d.

Definition MAXORDINAL : Z := 3652059.

(** A date that [datetime.date] can hold. *)
Definition valid_date (d : date) : Prop :=
  1 <= year d <= 9999 /\ 1 <= month d <= 12 /\
  1 <= day d <= days_in_month (year d) (month d).

Definition valid_dateb (d : date) : bool :=
  (1 <=? year d) && (year d <=? 9999) && (1 <=? month d) && (month d <=? 12) &&
  (1 <=? day d) && (day d <=? days_in_month (year d) (month d)).

(** [date + timedelta(days=n)]. *)
Definition date_add_days (d : date) (n : Z) : result date :=
  if (Z.abs n <=? 999999999) then
    let o := toordinal d + n in
    if (0 <? o) && (o <=? MAXORDINAL) then Ok (ord2ymd o) else Raise OverflowError
  else Raise OverflowError.

(** [d.replace(day=1)]. *)
Definition replace_day1 (d : date) : date := mkdate (year d) (month d) 1.

(** Dates and datetimes compare as the tuples of their fields. *)
Definition lex (c1 c2 : comparison) : comparison :=
  match c1 with
  | Eq => c2
  | _ => c1
  end.

Definition date_cmp (a b : date) : comparison :=
  lex (year a ?= year b) (lex (month a ?= month b) (day a ?= day b)).

Definition datetime_cmp (a b : datetime) : comparison :=
  lex (date_cmp (dt_date a) (dt_date b))
    (lex (hour a ?= hour b)
       (lex (minute a ?= minute b)
          (lex (second a ?= second b) (microsecond a ?= microsecond b)))).

Definition cmp_leb (c : comparison) : bool :=
  match c with
  | Gt => false
  | _ => true
  end.

Definition cmp_ltb (c : comparison) : bool :=
  match c with
  | Lt => true
  | _ => false
  end.

Definition date_leb (a b : date) : bool := cmp_leb (date_cmp a b).
Definition date_ltb (a b : date) : bool := cmp_ltb (date_cmp a b).
Definition datetime_leb (a b : datetime) : bool := cmp_leb (datetime_cmp a b).
Definition datetime_ltb (a b : datetime) : bool := cmp_ltb (datetime_cmp a b).

(** [d.weekday()]: Monday is 0. *)
Definition weekday (d : date) : Z := (toordinal d + 6) mod 7.

Definition day_name (d : date) : string :=
  match weekday d with
  | 0 => "Monday" | 1 => "Tuesday" | 2 => "Wednesday" | 3 => "Thursday"
  | 4 => "Friday" | 5 => "Saturday" | _ => "Sunday"
  end%string.

(** [_isoweek1monday]. *)
Definition isoweek1monday (y : Z) : Z :=
  let firstday := ymd2ord y 1 1 in
  let firstweekday := (firstday + 6) mod 7 in
  let week1monday := firstday - firstweekday in
  if 3 <? firstweekday then week1monday + 7 else week1monday.

(** [d.isocalendar()]: the ISO year and the ISO week number. *)
Definition isocalendar (d : date) : Z * Z :=
  let y := year d in
  let week1monday := isoweek1monday y in
  let today := toordinal d in
  let week := (today - week1monday) / 7 in
  if week <? 0 then
    let y := y - 1 in
    let week1monday := isoweek1monday y in
    (y, (today - week1monday) / 7 + 1)
  else if (52 <=? week) && (isoweek1monday (y + 1) <=? today) then (y + 1, 1)
  else (y, week + 1).

Definition iso_year (d : date) : Z := fst (isocalendar d).
Definition iso_week (d : date) : Z := snd (isocalendar d).

(** [d.isoformat()]: YYYY-MM-DD. *)
Definition digit (n : Z) : ascii := ascii_of_nat (48 + Z.to_nat (n mod 10)).

Definition pad2 (n : Z) : string :=
  String (digit (n / 10)) (String (digit n) EmptyString).

Definition pad4 (n : Z) : string :=
  String (digit (n / 1000)) (String (digit (n / 100)) (pad2 n)).

Definition isoformat (d : date) : string :=
  (pad4 (year d) ++ "-" ++ pad2 (month d) ++ "-" ++ pad2 (day d))%string.

End Calendar.

Import Calendar.

(* ================================================================== *)
(** * Strings *)

Module Str.

Definition lower_ascii (c : ascii) : ascii :=
  let n := nat_of_ascii c in
  if (65 <=? n)%nat && (n <=? 90)%nat then ascii_of_nat (n + 32) else c.

(** [s.lower()], on ASCII letters. *)
Fixpoint lower (s : string) : string :=
  match s with
  | EmptyString => EmptyString
  | String c s' => String (lower_ascii c) (lower s')
  end.

Definition is_space (c : ascii) : bool :=
  let n := nat_of_ascii c in
  ((9 <=? n)%nat && (n <=? 13)%nat) || ((28 <=? n)%nat && (n <=? 32)%nat).

Fixpoint lstrip (s : string) : string :=
  match s with
  | EmptyString => EmptyString
  | String c s' => if is_space c then lstrip s' else s
  end.

(** Drops the trailing white space. *)
Fixpoint rstrip (s : string) : string :=
  match s with
  | EmptyString => EmptyString
  | String c s' =>
      match rstrip s' with
      | EmptyString => if is_space c then EmptyString else String c EmptyString
      | t => String c t
      end
  end.

(** [s.strip()]. *)
Definition strip (s : string) : string := rstrip (lstrip s).

(** [pat in s]: [pat] occurs in [s] as a substring. *)
Fixpoint contains (pat s : string) : bool :=
  prefix pat s ||
  match s with
  | EmptyString => false
  | String _ s' => contains pat s'
  end.

(** The characters that mean something to the regular expression compiler. *)
Definition is_special (c : ascii) : bool :=
  existsb (Ascii.eqb c)
    (list_ascii_of_string ".^$*+?{}[]\|()").

Fixpoint plain (s : string) : bool :=
  match s with
  | EmptyString => true
  | String c s' => negb (is_special c) && plain s'
  end.

End Str.

Import Str.

(* ================================================================== *)
(** * JSON documents *)

Inductive value : Type :=
  | VNull
  | VBool (b : bool)
  | VNum (q : Q)
  | VStr (s : string).

(** A JSON object, a Python dict: keys in insertion order. *)
Definition dict : Type := list (string * value).

Fixpoint dict_get (k : string) (d : dict) : option value :=
  match d with
  | [] => None
  | (k', v) :: d' => if (k =? k')%string then Some v else dict_get k d'
  end.

(** [k in d]. *)
Definition dict_has (k : string) (d : dict) : bool :=
  match dict_get k d with
  | Some _ => true
  | None => false
  end.

(** [d[k] = v]: in place when the key exists, appended otherwise. *)
Fixpoint dict_set (k : string) (v : value) (d : dict) : dict :=
  match d with
  | [] => [(k, v)]
  | (k', v') :: d' =>
      if (k =? k')%string then (k', v) :: d' else (k', v') :: dict_set k v d'
  end.

(** [d[k]]. *)
Definition getitem (k : string) (d : dict) : result value :=
  match dict_get k d with
  | Some v => Ok v
  | None => Raise (KeyError k)
  end.

(** Truth value of a JSON scalar, as [not v] tests it. *)
Definition truthy (v : value) : bool :=
  match v with
  | VNull => false
  | VBool b => b
  | VNum q => negb (Qeqb0 q)
  | VStr s => negb (s =? EmptyString)%string
  end.

(** The value as an operand of arithmetic; [bool] is a subclass of [int]. *)
Definition as_number (v : value) : result Q :=
  match v with
  | VNum q => Ok q
  | VBool true => Ok 1%Q
  | VBool false => Ok 0%Q
  | _ => Raise TypeError
  end.

(** The value as the string argument of [strptime]. *)
Definition as_string (v : value) : result string :=
  match v with
  | VStr s => Ok s
  | _ => Raise TypeError
  end.

(** A JSON file holding a list of objects; [None] when it does not exist. *)
Definition json_list_file : Type := option (list dict).

(** A JSON file holding one object. *)
Definition json_dict_file : Type := option dict.

(** An operation of a manager on its file: the outcome and the file after. *)
Definition store_op (S A : Type) : Type := S -> result A * S.

(** [datetime.datetime.strptime(s, format)], [None] for the ValueError. *)
Definition strptime_fn : Type := string -> string -> option datetime.

Definition strptime_of (strptime : strptime_fn) (v : value) (fmt : string)
  : result datetime :=
  (s <- as_string v ;;
   match strptime s fmt with
   | Some t => Ok t
   | None => Raise ValueError
   end)%result.

(* ================================================================== *)
(** * ReminderManager *)

Module ReminderManager.

Definition load (file : json_list_file) : list dict :=
  match file with
  | Some data =>
      map (fun task =>
             if negb (dict_has "completed" task)
             then dict_set "completed" (VBool false) task
             else task) data
  | None => []
  end.

Definition save (tasks : list dict) : json_list_file := Some tasks.

Definition add (task_text date_time : string) : store_op json_list_file unit :=
  fun file =>
    let tasks := load file in
    let tasks := tasks ++ [[("task", VStr (strip task_text));
                            ("time", VStr date_time);
                            ("completed", VBool false)]%string] in
    (Ok tt, save tasks).

(** One turn of the loop of [check_reminders]: the notification the task
    appends, if any.  The test of [completed] is outside the [try]. *)
Definition check_task (strptime : strptime_fn) (now : datetime) (task : dict)
  : result (option value) :=
  (completed <- getitem "completed" task ;;
   if negb (truthy completed) then
     try_except
       (time <- getitem "time" task ;;
        task_time <- strptime_of strptime time "%Y-%m-%d %H:%M" ;;
        if datetime_leb task_time now
        then (text <- getitem "task" task ;; Ok (Some text))
        else Ok None)
       (try_except
          (time <- getitem "time" task ;;
           task_time <- strptime_of strptime time "%Y-%m-%d" ;;
           if date_leb (dt_date task_time) (dt_date now)
           then (text <- getitem "task" task ;; Ok (Some text))
           else Ok None)
          (Ok None))
   else Ok None)%result.

Fixpoint check_loop (strptime : strptime_fn) (now : datetime) (tasks : list dict)
  (notifications : list value) : result (list value) :=
  match tasks with
  | [] => Ok notifications
  | task :: rest =>
      (n <- check_task strptime now task ;;
       check_loop strptime now rest
         (match n with
          | Some text => notifications ++ [text]
          | None => notifications
          end))%result
  end.

Definition check_reminders (strptime : strptime_fn) (now : datetime)
  (file : json_list_file) : result (list value) :=
  check_loop strptime now (load file) [].

(** [sum(1 for t in rm.load() if not t["completed"])], the pending
    reminders of the home page. *)
Fixpoint count_pending (tasks : list dict) : result nat :=
  match tasks with
  | [] => Ok O
  | t :: rest =>
      (completed <- getitem "completed" t ;;
       n <- count_pending rest ;;
       Ok (if negb (truthy completed) then S n else n))%result
  end.

Definition pending_reminders (file : json_list_file) : result nat :=
  count_pending (load file).

(** The radio button of the reminder page. *)
Inductive view : Type := All | Pending | Completed.

(** [filtered_tasks]: the rows of the page.  They are the records of
    [tasks] themselves, not copies, so a row is given by its position in
    [tasks]; [from] is the position of the head of the list. *)
Fixpoint filtered_tasks (v : view) (tasks : list dict) (from : nat)
  : result (list nat) :=
  match tasks with
  | [] => Ok []
  | t :: rest =>
      match v with
      | All =>
          (shown <- filtered_tasks v rest (S from) ;; Ok (from :: shown))%result
      | Pending =>
          (completed <- getitem "completed" t ;;
           shown <- filtered_tasks v rest (S from) ;;
           Ok (if negb (truthy completed) then from :: shown else shown))%result
      | Completed =>
          (completed <- getitem "completed" t ;;
           shown <- filtered_tasks v rest (S from) ;;
           Ok (if truthy completed then from :: shown else shown))%result
      end
  end.

(** [tasks[i] = task]. *)
Fixpoint replace_at (i : nat) (task : dict) (tasks : list dict) : list dict :=
  match tasks, i with
  | [], _ => []
  | _ :: rest, O => task :: rest
  | t :: rest, S i' => t :: replace_at i' task rest
  end.

(** The Toggle button of row [i] of the page of reminders:
    [task["completed"] = not task["completed"]; rm.save(tasks)]. *)
Definition toggle (v : view) (i : nat) : store_op json_list_file unit :=
  fun file =>
    let tasks := load file in
    match filtered_tasks v tasks 0 with
    | Raise e => (Raise e, file)
    | Ok shown =>
        match nth_error shown i with
        | None => (Ok tt, file)
        | Some position =>
            match nth_error tasks position with
            | None => (Ok tt, file)
            | Some task =>
                match getitem "completed" task with
                | Raise e => (Raise e, file)
                | Ok completed =>
                    let task :=
                      dict_set "completed" (VBool (negb (truthy completed))) task in
                    (Ok tt, save (replace_at position task tasks))
                end
            end
        end
    end.

End ReminderManager.

(* ================================================================== *)
(** * The expense ledger: a data frame with columns Item, Amount, Date *)

(** A cell of the Date column: the text read from the CSV file, or, once
    [pd.to_datetime] has run, a date or NaT. *)
Inductive cell : Type :=
  | Text (s : string)
  | Stamp (d : date)
  | NaT.

Record row : Type := mkrow { Item : string; Amount : Q; Date : cell }.

(** [has_Date] is ['Date' in df.columns]. *)
Record DataFrame : Type := mkdf { has_Date : bool; rows : list row }.

Definition csv_file : Type := option DataFrame.

(** [df.empty]. *)
Definition df_empty (df : DataFrame) : bool :=
  match rows df with
  | [] => true
  | _ => false
  end.

(** [pd.to_datetime(column, errors='coerce')], cell by cell; [parse] is the
    library's parser of one text. *)
Definition to_datetime_cell (parse : string -> option date) (c : cell) : cell :=
  match c with
  | Text s =>
      match parse s with
      | Some d => Stamp d
      | None => NaT
      end
  | Stamp d => Stamp d
  | NaT => NaT
  end.

Definition with_Date (f : cell -> cell) (r : row) : row :=
  mkrow (Item r) (Amount r) (f (Date r)).

Definition to_datetime (parse : string -> option date) (df : DataFrame) : DataFrame :=
  mkdf (has_Date df) (map (with_Date (to_datetime_cell parse)) (rows df)).

(** What [to_csv] writes for a cell of a date column. *)
Definition csv_cell (c : cell) : cell :=
  match c with
  | Text s => Text s
  | Stamp d => Text (isoformat d)
  | NaT => Text EmptyString
  end.

(** [df.dropna(subset=['Date'])] on a converted frame: the dated rows. *)
Fixpoint dated (l : list row) : list (date * Q) :=
  match l with
  | [] => []
  | r :: l' =>
      match Date r with
      | Stamp d => (d, Amount r) :: dated l'
      | _ => dated l'
      end
  end.

(** [df[mask]['Amount'].sum()]. *)
Definition sum_where (mask : date -> bool) (l : list (date * Q)) : Q :=
  Qsum (map snd (filter (fun r => mask (fst r)) l)).

(** [df.groupby(key)['Amount'].sum()]: one entry per key, keys ascending. *)
Fixpoint group_add {K : Type} (cmp : K -> K -> comparison) (k : K) (v : Q)
  (groups : list (K * Q)) : list (K * Q) :=
  match groups with
  | [] => [(k, v)]
  | (k', s) :: rest =>
      match cmp k k' with
      | Lt => (k, v) :: groups
      | Eq => (k', (s + v)%Q) :: rest
      | Gt => (k', s) :: group_add cmp k v rest
      end
  end.

Definition groupby_sum {K : Type} (cmp : K -> K -> comparison) (l : list (K * Q))
  : list (K * Q) :=
  fold_left (fun groups kv => group_add cmp (fst kv) (snd kv) groups) l [].

(** [series.idxmax()]: the label of the first maximum. *)
Fixpoint idxmax_from {K : Type} (best : K) (bestv : Q) (l : list (K * Q)) : K :=
  match l with
  | [] => best
  | (k, v) :: rest =>
      if Qgtb v bestv then idxmax_from k v rest else idxmax_from best bestv rest
  end.

Definition idxmax {K : Type} (l : list (K * Q)) : option K :=
  match l with
  | [] => None
  | (k, v) :: rest => Some (idxmax_from k v rest)
  end.

(** [series.iloc[-i]], for [1 <= i <= len(series)]. *)
Definition iloc_neg {K : Type} (i : nat) (l : list (K * Q)) : Q :=
  nth (List.length l - i)%nat (map snd l) 0%Q.

(* ================================================================== *)
(** * ExpenseManager *)

Inductive insight : Type :=
  | NoExpensesYet                       (* "No expenses yet to analyze" *)
  | AddMoreExpenses                     (* "Add more expenses for insights" *)
  | HighestSpendingDay (day : string)   (* "Highest spending day: {day}" *)
  | SpendingIncreased (increase : num)  (* "Spending increased by {increase}% this week" *)
  | SpendingVsLastMonth (change : Q).   (* "Spending {change}% higher than last month" *)

Module ExpenseManager.

Definition load (parse : string -> option date) (file : csv_file) : DataFrame :=
  match file with
  | Some df => if has_Date df then to_datetime parse df else df
  | None => mkdf true []
  end.

Definition save (df : DataFrame) : csv_file :=
  Some (mkdf (has_Date df) (map (with_Date csv_cell) (rows df))).

(** The week-over-week insight, from the sums grouped by week number. *)
Definition weekly_trend (weekly_spending : list (Z * Q)) : list insight :=
  if (2 <=? List.length weekly_spending)%nat then
    let last_week := iloc_neg 1 weekly_spending in
    let second_last := iloc_neg 2 weekly_spending in
    if Qgtb last_week second_last then
      [SpendingIncreased (fmul_pos (fdiv (last_week - second_last) second_last) 100)]
    else []
  else [].

(** The month-over-month insight, from the two sums. *)
Definition monthly_change (this_month last_month_spent : Q) : list insight :=
  if Qgtb last_month_spent 0 && Qgtb this_month 0 then
    let change := ((this_month - last_month_spent) / last_month_spent * 100)%Q in
    if Qgtb change 10 then [SpendingVsLastMonth change] else []
  else [].

Definition get_spending_insights (parse : string -> option date) (today : date)
  (file : csv_file) : result (list insight) :=
  let df := load parse file in
  if df_empty df then Ok [NoExpensesYet]
  else if negb (has_Date df) then Ok [AddMoreExpenses]
  else
    let df := dated (rows (to_datetime parse df)) in
    (* day of week analysis *)
    let day_spending :=
      groupby_sum String.compare (map (fun r => (day_name (fst r), snd r)) df) in
    let insights :=
      match idxmax day_spending with
      | Some highest_day => [HighestSpendingDay highest_day]
      | None => []
      end in
    (* weekly spending trend *)
    let weekly_spending :=
      groupby_sum Z.compare (map (fun r => (iso_week (fst r), snd r)) df) in
    let insights := insights ++ weekly_trend weekly_spending in
    (* recent vs previous period *)
    let start_of_month := replace_day1 today in
    (last_day <- date_add_days start_of_month (-1) ;;
     let last_month := replace_day1 last_day in
     let this_month := sum_where (fun d => date_leb start_of_month d) df in
     let last_month_spent :=
       sum_where (fun d => date_leb last_month d && date_ltb d start_of_month) df in
     Ok (insights ++ monthly_change this_month last_month_spent))%result.

End ExpenseManager.

(* ================================================================== *)
(** * BudgetManager *)

Inductive alert : Type :=
  | BudgetExceeded (spent : Q) (weekly_budget : value) (percentage : num)
  | BudgetWarning (percentage : num) (spent : Q) (weekly_budget : value).

Module BudgetManager.

Definition load (file : json_dict_file) : dict :=
  match file with
  | Some budget_data => budget_data
  | None => []
  end.

Definition save (budget_data : dict) : json_dict_file := Some budget_data.

Definition set_weekly_budget (today : date) (amount : Q)
  : store_op json_dict_file unit :=
  fun file =>
    let budget_data := load file in
    let budget_data := dict_set "weekly_budget" (VNum amount) budget_data in
    let budget_data := dict_set "week_start" (VStr (isoformat today)) budget_data in
    (Ok tt, save budget_data).

Definition get_budget_alerts (strptime : strptime_fn) (parse : string -> option date)
  (file : json_dict_file) (expenses_df : DataFrame) : result (list alert) :=
  let budget_data := load file in
  if negb (dict_has "weekly_budget" budget_data) then Ok []
  else
    (weekly_budget <- getitem "weekly_budget" budget_data ;;
     start <- getitem "week_start" budget_data ;;
     week_start <- strptime_of strptime start "%Y-%m-%d" ;;
     let week_start := dt_date week_start in
     if df_empty expenses_df || negb (has_Date expenses_df) then Ok []
     else
       let expenses_df := to_datetime parse expenses_df in
       let this_week_expenses :=
         sum_where (fun d => date_leb week_start d) (dated (rows expenses_df)) in
       budget <- as_number weekly_budget ;;
       let percentage := fmul_pos (fdiv this_week_expenses budget) 100 in
       if num_geb percentage 100 then
         Ok [BudgetExceeded this_week_expenses weekly_budget percentage]
       else if num_geb percentage 80 then
         Ok [BudgetWarning percentage this_week_expenses weekly_budget]
       else Ok [])%result.

End BudgetManager.

(* ================================================================== *)
(** * GoalManager *)

Module GoalManager.

Definition load (file : json_list_file) : list dict :=
  match file with
  | Some goals => goals
  | None => []
  end.

Definition save (goals : list dict) : json_list_file := Some goals.

Definition add (today : date) (name : string) (target_amount : Q)
  (timeframe_months : Z) : store_op json_list_file unit :=
  fun file =>
    let goals := load file in
    match date_add_days today (30 * timeframe_months) with
    | Ok target_date =>
        let goals :=
          goals ++ [[("name", VStr name);
                     ("target_amount", VNum target_amount);
                     ("current_amount", VNum 0);
                     ("timeframe_months", VNum (inject_Z timeframe_months));
                     ("created", VStr (isoformat today));
                     ("target_date", VStr (isoformat target_date))]%string] in
        (Ok tt, save goals)
    | Raise e => (Raise e, file)
    end.

(** [goal["current_amount"] += amount_added]. *)
Definition add_to_current (amount_added : Q) (goal : dict) : result dict :=
  (current <- getitem "current_amount" goal ;;
   current <- as_number current ;;
   Ok (dict_set "current_amount" (VNum (current + amount_added)) goal))%result.

(** [goals[i] = goal], for [i] in range. *)
Fixpoint list_set {A : Type} (i : nat) (a : A) (l : list A) : list A :=
  match l, i with
  | [], _ => []
  | _ :: l', O => a :: l'
  | x :: l', S i' => x :: list_set i' a l'
  end.

Definition update_progress (goal_index : Z) (amount_added : Q)
  : store_op json_list_file unit :=
  fun file =>
    let goals := load file in
    if (0 <=? goal_index) && (goal_index <? Z.of_nat (List.length goals)) then
      match nth_error goals (Z.to_nat goal_index) with
      | Some goal =>
          match add_to_current amount_added goal with
          | Ok goal' => (Ok tt, save (list_set (Z.to_nat goal_index) goal' goals))
          | Raise e => (Raise e, file)
          end
      | None => (Ok tt, file)
      end
    else (Ok tt, file).

(** A sequence of calls; it stops at the first exception. *)
Fixpoint update_all (calls : list (Z * Q)) : store_op json_list_file unit :=
  fun file =>
    match calls with
    | [] => (Ok tt, file)
    | (goal_index, amount_added) :: rest =>
        match update_progress goal_index amount_added file with
        | (Ok _, file') => update_all rest file'
        | (Raise e, file') => (Raise e, file')
        end
    end.

(** The body of the loop of [get_progress]: the goal with its derived
    fields, or the exception that the [try] swallows.  Every exception
    comes before the first assignment to the goal. *)
Definition with_progress (strptime : strptime_fn) (today : date) (total_spent : Q)
  (n_expenses : nat) (goal : dict) : result dict :=
  (target_date <- getitem "target_date" goal ;;
   target_date <- strptime_of strptime target_date "%Y-%m-%d" ;;
   let days_left := toordinal (dt_date target_date) - toordinal today in
   if 0 <? days_left then
     target_amount <- getitem "target_amount" goal ;;
     current_amount <- getitem "current_amount" goal ;;
     target_amount <- as_number target_amount ;;
     current_amount <- as_number current_amount ;;
     let daily_saving_needed :=
       ((target_amount - current_amount) / inject_Z days_left)%Q in
     let goal := dict_set "daily_saving" (VNum daily_saving_needed) goal in
     let goal := dict_set "days_left" (VNum (inject_Z days_left)) goal in
     if Qgtb total_spent 0 && (10 <? n_expenses)%nat then
       let avg_daily_spend := (total_spent / inject_Z (Z.of_nat n_expenses))%Q in
       if Qgtb avg_daily_spend (daily_saving_needed * 2) then
         Ok (dict_set "warning"
               (VStr "You might need to save more to reach this goal") goal)
       else Ok goal
     else Ok goal
   else Ok goal)%result.

Definition get_progress (strptime : strptime_fn) (today : date)
  (file : json_list_file) (expenses_df : DataFrame) : list dict :=
  let goals := load file in
  match goals with
  | [] => goals
  | _ =>
      let total_spent :=
        if negb (df_empty expenses_df)
        then Qsum (map Amount (rows expenses_df)) else 0%Q in
      map (fun goal =>
             match with_progress strptime today total_spent
                     (List.length (rows expenses_df)) goal with
             | Ok goal' => goal'
             | Raise _ => goal
             end) goals
  end.

End GoalManager.

(* ================================================================== *)
(** * The restaurant catalogue *)

Module Restaurant.

(** A cell of the rating column as [read_csv] leaves it: a number, a text
    that is not one, or a missing value. *)
Inductive rating_cell : Type :=
  | RNum (q : Q)
  | RText (s : string)
  | RNaN.

Record restaurant : Type := mkrestaurant {
  name : option string;
  cuisine : option string;
  rating : rating_cell;
  description : option string
}.

(** [re.compile(pattern, flags)]: the matcher [re.search] of the compiled
    pattern, or the [re.error]; the first argument is [IGNORECASE]. *)
Definition re_compile_fn : Type := bool -> string -> result (string -> bool).

(** What is used of the compiler: a pattern without special characters
    matches itself. *)
Definition literal_patterns (re_compile : re_compile_fn) : Prop :=
  forall pat, plain pat = true ->
    (exists m, re_compile false pat = Ok m /\ forall s, m s = contains pat s) /\
    (exists m, re_compile true pat = Ok m /\
               forall s, m s = contains (lower pat) (lower s)).

(** A compiler that knows plain patterns only, for concrete runs. *)
Definition re_compile_plain : re_compile_fn :=
  fun ignorecase pat =>
    if plain pat then
      Ok (fun s => if ignorecase then contains (lower pat) (lower s)
                   else contains pat s)
    else Raise ReError.



Definition fillna_str (c : option string) : string :=
  match c with
  | Some s => s
  | None => EmptyString
  end.

(** [column >= min_rating], one cell; [fillna0] is [.fillna(0)]. *)
Definition rating_ge (fillna0 : bool) (min_rating : Q) (c : rating_cell)
  : result bool :=
  match c with
  | RNum q => Ok (Qgeb q min_rating)
  | RNaN => Ok (if fillna0 then Qgeb 0 min_rating else false)
  | RText _ => Raise TypeError
  end.

Fixpoint mask_rows (mask : restaurant -> result bool) (df : list restaurant)
  : result (list restaurant) :=
  match df with
  | [] => Ok []
  | r :: rest =>
      (b <- mask r ;;
       kept <- mask_rows mask rest ;;
       Ok (if b then r :: kept else kept))%result
  end.

(** [filter_restaurants] of the command-line filter. *)
Definition filter_restaurants (re_compile : re_compile_fn) (df : list restaurant)
  (main_menu : string) (min_rating : Q) : result (list restaurant) :=
  let keyword := lower (strip main_menu) in
  (search <- re_compile false keyword ;;
   mask_rows
     (fun r =>
        let mask_keyword :=
          search (lower (fillna_str (cuisine r))) ||
          search (lower (fillna_str (name r))) in
        mask_rating <- rating_ge true min_rating (rating r) ;;
        Ok (mask_keyword && mask_rating))
     df)%result.

(** [str.contains(pat, case=False, na=False)], one cell. *)
Definition contains_na_false (search : string -> bool) (c : option string) : bool :=
  match c with
  | Some s => search s
  | None => false
  end.

(** The search of the dashboard page ([show_restaurants]). *)
Definition dashboard_search (re_compile : re_compile_fn) (df : list restaurant)
  (cuisine_query : string) (min_rating : Q) : result (list restaurant) :=
  (search <- re_compile true cuisine_query ;;
   mask_rows
     (fun r =>
        let mask :=
          contains_na_false search (cuisine r) ||
          contains_na_false search (description r) in
        above <- rating_ge false min_rating (rating r) ;;
        Ok (mask && above))
     df)%result.

(** [RestaurantManager.get_occasion_suggestions]. *)
Definition get_occasion_suggestions (occasion : string) : list string :=
  (if occasion =? "Romantic Dinner"
   then ["Fine Dining"; "Italian"; "French"; "Candle Light"]
   else if occasion =? "Family Dinner"
   then ["North Indian"; "Chinese"; "Multi-cuisine"; "Vegetarian"]
   else if occasion =? "Business Lunch"
   then ["Quick Bites"; "Cafe"; "Sandwiches"; "Salads"]
   else if occasion =? "Birthday Party"
   then ["Pub"; "Barbeque"; "Multi-cuisine"; "Desserts"]
   else if occasion =? "Quick Lunch"
   then ["Fast Food"; "South Indian"; "Street Food"; "Snacks"]
   else if occasion =? "Date Night"
   then ["Italian"; "Chinese"; "Continental"; "Wine Bar"]
   else ["Indian"; "Chinese"; "Italian"])%string.

(** The occasions of the select box of the page. *)
Definition occasions : list string :=
  ["Romantic Dinner"; "Family Dinner"; "Business Lunch";
   "Birthday Party"; "Quick Lunch"; "Date Night"]%string.




End Restaurant.

(* ================================================================== *)
(** * Strict parsers, for concrete runs

    The library parsers accept more than these do; the theorems below hold
    for every parser, and these instantiate them on concrete ledgers. *)

Module Strict.

Definition digit_val (c : ascii) : option Z :=
  let n := nat_of_ascii c in
  if (48 <=? n)%nat && (n <=? 57)%nat then Some (Z.of_nat (n - 48)) else None.

(** Reads exactly [n] decimal digits. *)
Fixpoint digits (n : nat) (s : string) (acc : Z) : option (Z * string) :=
  match n with
  | O => Some (acc, s)
  | S n' =>
      match s with
      | String c s' =>
          match digit_val c with
          | Some v => digits n' s' (10 * acc + v)
          | None => None
          end
      | EmptyString => None
      end
  end.

Definition expect (c : ascii) (s : string) : option string :=
  match s with
  | String c' s' => if Ascii.eqb c c' then Some s' else None
  | EmptyString => None
  end.

Definition obind {A B : Type} (o : option A) (k : A -> option B) : option B :=
  match o with
  | Some a => k a
  | None => None
  end.

(** YYYY-MM-DD at the head of [s]. *)
Definition date_prefix (s : string) : option (date * string) :=
  obind (digits 4 s 0) (fun '(y, s) =>
  obind (expect "-" s) (fun s =>
  obind (digits 2 s 0) (fun '(m, s) =>
  obind (expect "-" s) (fun s =>
  obind (digits 2 s 0) (fun '(d, s) =>
  if valid_dateb (mkdate y m d) then Some (mkdate y m d, s) else None))))).

Definition parse_date (s : string) : option date :=
  match date_prefix s with
  | Some (d, EmptyString) => Some d
  | _ => None
  end.

(** YYYY-MM-DD HH:MM. *)
Definition parse_minute (s : string) : option datetime :=
  obind (date_prefix s) (fun '(d, s) =>
  obind (expect " " s) (fun s =>
  obind (digits 2 s 0) (fun '(h, s) =>
  obind (expect ":" s) (fun s =>
  obind (digits 2 s 0) (fun '(mi, s) =>
  match s with
  | EmptyString =>
      if (h <? 24) && (mi <? 60) then Some (mkdatetime d h mi 0 0) else None
  | _ => None
  end))))).

Definition strptime : strptime_fn :=
  fun s fmt =>
    if (fmt =? "%Y-%m-%d %H:%M")%string then parse_minute s
    else if (fmt =? "%Y-%m-%d")%string then
      option_map (fun d => mkdatetime d 0 0 0 0) (parse_date s)
    else None.

End Strict.

(* ================================================================== *)
(** * Vocabulary of the statements *)

(** The month and day found for day [n] of a year are those of the tables. *)
Definition month_day_ok (leap : bool) (n : Z) : bool :=
  let '(m, d) := month_day n leap in
  (1 <=? m) && (m <=? 12) && (1 <=? d) &&
  (d <=? DAYS_IN_MONTH m + (if (m =? 2) && leap then 1 else 0)) &&
  (DAYS_BEFORE_MONTH m + (if (2 <? m) && leap then 1 else 0) + d =? n + 1).

(** Month and day of a date are in range. *)
Definition fields_ok (d : date) : Prop :=
  1 <= month d <= 12 /\ 1 <= day d <= days_in_month (year d) (month d).

(** The order of dates and of times of day, field by field. *)
Definition date_lt (a b : date) : Prop :=
  year a < year b \/
  (year a = year b /\
   (month a < month b \/ (month a = month b /\ day a < day b))).

Definition date_eq (a b : date) : Prop :=
  year a = year b /\ month a = month b /\ day a = day b.

Definition time_lt (a b : datetime) : Prop :=
  hour a < hour b \/
  (hour a = hour b /\
   (minute a < minute b \/
    (minute a = minute b /\
     (second a < second b \/
      (second a = second b /\ microsecond a < microsecond b))))).

Definition time_eq (a b : datetime) : Prop :=
  hour a = hour b /\ minute a = minute b /\ second a = second b /\
  microsecond a = microsecond b.

(** [l] is [l'] with some elements left out. *)
Inductive sublist {A : Type} : list A -> list A -> Prop :=
  | sublist_nil : sublist [] []
  | sublist_skip (x : A) (l l' : list A) : sublist l l' -> sublist l (x :: l')
  | sublist_cons (x : A) (l l' : list A) : sublist l l' -> sublist (x :: l) (x :: l').

(** The notifications of a task list, one task after the other. *)
Definition notifications_of (strptime : strptime_fn) (now : datetime)
  (tasks : list dict) : list value :=
  flat_map (fun task =>
              match ReminderManager.check_task strptime now task with
              | Ok (Some text) => [text]
              | _ => []
              end) tasks.



(** The rows an expense file holds. *)
Definition ledger_rows (file : csv_file) : list row :=
  match file with
  | Some df => rows df
  | None => []
  end.

(** A Date cell that is the ISO text of the date it is read as. *)
Definition canonical_date (parse : string -> option date) (c : cell) : Prop :=
  exists d, c = Text (isoformat d) /\ parse (isoformat d) = Some d.



(** The amount saved so far of a goal, when the record has one. *)
Definition current_amount_of (goal : dict) : option Q :=
  match dict_get "current_amount" goal with
  | Some v =>
      match as_number v with
      | Ok q => Some q
      | Raise _ => None
      end
  | None => None
  end.

(** [goal'] is [goal] with no less saved. *)
Definition no_less_saved (goal goal' : dict) : Prop :=
  exists c c', current_amount_of goal = Some c /\
               current_amount_of goal' = Some c' /\ (c <= c')%Q.

(** ** Sample data *)

Definition sample_goal (goal_name : string) (saved : Q) : dict :=
  [("name", VStr goal_name); ("target_amount", VNum 12000);
   ("current_amount", VNum saved); ("timeframe_months", VNum 12);
   ("created", VStr "2024-01-01"); ("target_date", VStr "2024-12-26")]%string.

Definition sample_goals : json_list_file :=
  Some [sample_goal "Laptop" 100; sample_goal "Trip" 0].


Definition sample_reminders : json_list_file :=
  Some [[("task", VStr "Call Mom"); ("time", VStr "2024-01-05 09:00");
         ("completed", VBool false)];
        [("task", VStr "Pay rent"); ("time", VStr "2024-01-06");
         ("completed", VBool false)];
        [("task", VStr "Buy milk"); ("time", VStr "2024-01-01 08:00");
         ("completed", VBool true)];
        [("task", VStr "Someday"); ("time", VStr "soon");
         ("completed", VBool false)]]%string.




Definition is_exceeded (a : alert) : bool :=
  match a with
  | BudgetExceeded _ _ _ => true
  | BudgetWarning _ _ _ => false
  end.

Definition is_warning (a : alert) : bool := negb (is_exceeded a).

Definition sample_budget : json_dict_file :=
  Some [("weekly_budget", VNum 1000); ("week_start", VStr "2024-01-01")]%string.

Definition sample_frame : DataFrame :=
  mkdf true [mkrow "Groceries" 500 (Stamp (mkdate 2024 1 2));
             mkrow "Fuel" 300 (Stamp (mkdate 2024 1 3));
             mkrow "Old" 900 (Stamp (mkdate 2023 12 30))].

Definition one_expense (amount : Q) : DataFrame :=
  mkdf true [mkrow "Rent" amount (Stamp (mkdate 2024 1 2))].


(** The dated expenses of the ledger file, as [get_spending_insights] keeps
    them after [dropna]. *)
Definition dated_expenses (parse : string -> option date) (file : csv_file)
  : list (date * Q) :=
  let df := ExpenseManager.load parse file in
  if has_Date df then dated (rows (to_datetime parse df)) else [].





(** Spent in one ISO week. *)
Definition week_total (parse : string -> option date) (iso_y iso_w : Z)
  (file : csv_file) : Q :=
  sum_where (fun d => (iso_year d =? iso_y) && (iso_week d =? iso_w))
    (dated_expenses parse file).

(** Two expenses, one in the last week of 2023 and one in the second week
    of 2024. *)
Definition new_year_ledger : csv_file :=
  Some (mkdf true [mkrow "Gift" 200 (Text "2023-12-25");
                   mkrow "Bus" 100 (Text "2024-01-08")]).






(** The rating column is numeric, as [load_data] leaves it. *)
Definition numeric_rating (r : Restaurant.restaurant) : Prop :=
  match Restaurant.rating r with
  | Restaurant.RText _ => False
  | _ => True
  end.



Definition dashboard_keeps (cuisine_query : string) (min_rating : Q)
  (r : Restaurant.restaurant) : bool :=
  let search := fun s => contains (lower cuisine_query) (lower s) in
  (Restaurant.contains_na_false search (Restaurant.cuisine r) ||
   Restaurant.contains_na_false search (Restaurant.description r)) &&
  match Restaurant.rating r with
  | Restaurant.RNum q => Qle_bool min_rating q
  | _ => false
  end.

Definition unrated : Restaurant.restaurant :=
  Restaurant.mkrestaurant (Some "Udupi Grand"%string) (Some "South Indian"%string)
    Restaurant.RNaN (Some "Family dining"%string).

Definition rated (q : Q) : Restaurant.restaurant :=
  Restaurant.mkrestaurant (Some "Pizza Bakery"%string)
    (Some "Italian, Pizza"%string) (Restaurant.RNum q) None.


(** ** Vocabulary of the further properties *)


(** The record [ReminderManager.add] appends. *)
Definition new_reminder (task_text date_time : string) : dict :=
  [("task", VStr (strip task_text)); ("time", VStr date_time);
   ("completed", VBool false)]%string.

(** The [completed] field is a JSON boolean. *)
Definition completed_is_bool (task : dict) : Prop :=
  exists b, dict_get "completed" task = Some (VBool b).


(** The days from [today] to the target date of a goal, when [strptime]
    reads the date. *)
Definition days_until (strptime : strptime_fn) (today : date) (goal : dict)
  : option Z :=
  match dict_get "target_date" goal with
  | Some (VStr s) =>
      match strptime s "%Y-%m-%d"%string with
      | Some t => Some (toordinal (dt_date t) - toordinal today)
      | None => None
      end
  | _ => None
  end.

(** A key that [get_progress] computes. *)
Definition derived_key (k : string) : Prop :=
  k = "daily_saving"%string \/ k = "days_left"%string \/ k = "warning"%string.


(** More than ten expenses, for the warning of [get_progress]. *)
Definition eleven_expenses : DataFrame :=
  mkdf true (repeat (mkrow "Dinner" 900 (Stamp (mkdate 2024 1 2))) 11).



(** A budget file with a field of its own besides the two of the budget. *)
Definition annotated_budget : json_dict_file :=
  Some [("note", VStr "holiday"); ("weekly_budget", VNum 1000);
        ("week_start", VStr "2024-01-01")]%string.

(** A budget file that lost its [week_start]. *)
Definition broken_budget : json_dict_file :=
  Some [("weekly_budget", VNum 1000)]%string.

(** The sum of the values grouped under the key [k]. *)
Definition group_total {K : Type} (eqb : K -> K -> bool) (k : K)
  (l : list (K * Q)) : Q :=
  Qsum (map snd (filter (fun kv => eqb (fst kv) k) l)).

(** Keys in strictly ascending order. *)
Fixpoint ascending {K : Type} (cmp : K -> K -> comparison) (l : list K) : Prop :=
  match l with
  | [] => True
  | k :: rest => Forall (fun k' => cmp k k' = Lt) rest /\ ascending cmp rest
  end.

(** Spent on the days of the week called [name]. *)
Definition weekday_total (parse : string -> option date) (name : string)
  (file : csv_file) : Q :=
  sum_where (fun d => String.eqb (day_name d) name) (dated_expenses parse file).

(** Three weeks of January 2024: 100 in week 1, 50 in week 2, 80 in week 3. *)
Definition january_ledger : csv_file :=
  Some (mkdf true [mkrow "Rent" 100 (Text "2024-01-03");
                   mkrow "Bus" 20 (Text "2024-01-08");
                   mkrow "Food" 80 (Text "2024-01-16");
                   mkrow "Tea" 30 (Text "2024-01-10");
                   mkrow "Note" 5 (Text "soon")]).

(** The progress line of the Expenses page, for one goal of
    [get_progress]:
    [min(100, (goal["current_amount"] / goal["target_amount"]) * 100)]. *)
Inductive percent : Type :=
  | Percent (progress : Q)
  | ZeroDivisionError
  | Failed (e : exn).

Definition goal_progress (goal : dict) : percent :=
  match getitem "current_amount" goal with
  | Raise e => Failed e
  | Ok current_amount =>
      match getitem "target_amount" goal with
      | Raise e => Failed e
      | Ok target_amount =>
          match as_number current_amount with
          | Raise e => Failed e
          | Ok current =>
              match as_number target_amount with
              | Raise e => Failed e
              | Ok target =>
                  if Qeqb0 target then ZeroDivisionError
                  else
                    let ratio := (current / target * 100)%Q in
                    Percent (if Qgtb 100 ratio then ratio else 100%Q)
              end
          end
      end
  end.

(** A goal called [goal_name] with the target [target] and a saved amount
    that is not negative. *)
Definition funded (goal_name : string) (target : Q) (goal : dict) : Prop :=
  dict_get "name" goal = Some (VStr goal_name) /\
  dict_get "target_amount" goal = Some (VNum target) /\
  exists saved,
    dict_get "current_amount" goal = Some (VNum saved) /\ (0 <= saved)%Q.

(* ================================================================== *)
(** * Facts about the calendar *)

Module CalendarFacts.

Ltac tables :=
  cbv [DAYS_IN_MONTH DAYS_BEFORE_MONTH Z.eqb Z.ltb Z.compare Pos.compare
       Pos.compare_cont Pos.eqb andb orb negb].

Lemma year_decomp (n : Z) :
  0 <= n ->
  exists a b c e r,
    n / DI400Y = a /\ (n mod DI400Y) / DI100Y = b /\
    ((n mod DI400Y) mod DI100Y) / DI4Y = c /\
    (((n mod DI400Y) mod DI100Y) mod DI4Y) / 365 = e /\
    (((n mod DI400Y) mod DI100Y) mod DI4Y) mod 365 = r /\
    0 <= a /\ 0 <= b <= 4 /\ 0 <= c <= 24 /\ 0 <= e <= 4 /\ 0 <= r < 365 /\
    n = 146097 * a + 36524 * b + 1461 * c + 365 * e + r /\
    (b = 4 -> c = 0 /\ e = 0 /\ r = 0) /\
    (e = 4 -> r = 0 /\ c <= 23).
Proof.
  intros Hn. unfold DI400Y, DI100Y, DI4Y.
  do 5 eexists. repeat split; try reflexivity.
  all: Z.div_mod_to_equations; lia.
Qed.

Lemma dby_decomp a b c e :
  0 <= a -> 0 <= b <= 3 -> 0 <= c <= 24 -> 0 <= e <= 3 ->
  days_before_year (400 * a + 100 * b + 4 * c + e + 1) =
  146097 * a + 36524 * b + 1461 * c + 365 * e.
Proof.
  intros. unfold days_before_year. Z.div_mod_to_equations. lia.
Qed.

Lemma leap_decomp a b c e :
  0 <= a -> 0 <= b <= 3 -> 0 <= c <= 24 -> 0 <= e <= 3 ->
  is_leap (400 * a + 100 * b + 4 * c + e + 1) =
  (e =? 3) && (negb (c =? 24) || (b =? 3)).
Proof.
  intros. unfold is_leap.
  repeat match goal with |- context [?x =? ?y] => destruct (Z.eqb_spec x y) end;
  simpl; try reflexivity; exfalso; Z.div_mod_to_equations; lia.
Qed.

Lemma month_day_table leap n :
  0 <= n < 365 -> month_day_ok leap n = true.
Proof.
  intros Hn.
  assert (H : forallb (fun k => month_day_ok leap (Z.of_nat k)) (seq 0 365) = true)
    by (destruct leap; vm_compute; reflexivity).
  rewrite forallb_forall in H.
  specialize (H (Z.to_nat n)).
  rewrite Z2Nat.id in H by lia.
  apply H, in_seq. lia.
Qed.

Lemma month_day_spec leap n m d :
  0 <= n < 365 -> month_day n leap = (m, d) ->
  1 <= m <= 12 /\
  1 <= d <= DAYS_IN_MONTH m + (if (m =? 2) && leap then 1 else 0) /\
  DAYS_BEFORE_MONTH m + (if (2 <? m) && leap then 1 else 0) + d = n + 1.
Proof.
  intros Hn E. pose proof (month_day_table leap n Hn) as H.
  unfold month_day_ok in H. rewrite E in H.
  repeat (apply andb_prop in H; destruct H as [H ?]).
  lia.
Qed.


Lemma toordinal_ord2ymd n : 1 <= n -> toordinal (ord2ymd n) = n.
Proof.
  intros Hn.
  destruct (year_decomp (n - 1)) as (a & b & c & e & r & Ha & Hb & Hc & He & Hr & Ba & Bb & Bc & Be & Br & Hsum & Hb4 & He4); [lia|].
  unfold ord2ymd. rewrite Ha, Hb, Hc, He, Hr.
  destruct (Z.eqb_spec e 4) as [E4|E4]; [|destruct (Z.eqb_spec b 4) as [B4|B4]];
    cbn [orb].
  - (* last day of a leap year closing a 4-year cycle *)
    destruct (He4 E4) as [-> C23].
    assert (b <= 3) by (destruct (Z.eq_dec b 4) as [B|B]; [destruct (Hb4 B); lia|lia]).
    unfold toordinal, ymd2ord; cbn [year month day].
    replace (a * 400 + 1 + b * 100 + c * 4 + e - 1) with (400 * a + 100 * b + 4 * c + 3 + 1) by lia.
    unfold days_before_month. rewrite leap_decomp, dby_decomp by lia.
    replace (c =? 24) with false by (symmetry; apply Z.eqb_neq; lia).
    change (DAYS_BEFORE_MONTH 12) with 334.
    change ((2 <? 12) && ((3 =? 3) && (negb false || (b =? 3)))) with true.
    cbv iota. lia.
  - (* last day of a 400-year cycle *)
    destruct (Hb4 B4) as (-> & -> & ->). rewrite B4 in *. clear Hb.
    unfold toordinal, ymd2ord; cbn [year month day].
    replace (a * 400 + 1 + 4 * 100 + 0 * 4 + 0 - 1) with (400 * a + 100 * 3 + 4 * 24 + 3 + 1) by lia.
    unfold days_before_month. rewrite leap_decomp, dby_decomp by lia.
    change (DAYS_BEFORE_MONTH 12) with 334.
    change ((2 <? 12) && ((3 =? 3) && (negb (24 =? 24) || (3 =? 3)))) with true.
    cbv iota. lia.
  - destruct (month_day r _) as [m d] eqn:E.
    apply month_day_spec in E; [|lia].
    unfold toordinal, ymd2ord, days_before_month; cbn [year month day].
    replace (a * 400 + 1 + b * 100 + c * 4 + e) with (400 * a + 100 * b + 4 * c + e + 1) by lia.
    rewrite leap_decomp, dby_decomp by lia.
    lia.
Qed.

Lemma ord2ymd_fields n :
  1 <= n ->
  1 <= year (ord2ymd n) /\ 1 <= month (ord2ymd n) <= 12 /\
  1 <= day (ord2ymd n) <= days_in_month (year (ord2ymd n)) (month (ord2ymd n)).
Proof.
  intros Hn.
  destruct (year_decomp (n - 1)) as (a & b & c & e & r & Ha & Hb & Hc & He & Hr & Ba & Bb & Bc & Be & Br & Hsum & Hb4 & He4); [lia|].
  unfold ord2ymd. rewrite Ha, Hb, Hc, He, Hr.
  destruct (Z.eqb_spec e 4) as [E4|E4]; [|destruct (Z.eqb_spec b 4) as [B4|B4]];
    cbn [orb].
  - cbn [year month day]. unfold days_in_month.
    change (12 =? 2) with false. cbn [andb]. change (DAYS_IN_MONTH 12) with 31. lia.
  - cbn [year month day]. unfold days_in_month.
    change (12 =? 2) with false. cbn [andb]. change (DAYS_IN_MONTH 12) with 31. lia.
  - destruct (month_day r _) as [m d] eqn:E.
    apply month_day_spec in E; [|lia].
    cbn [year month day]. unfold days_in_month.
    replace (a * 400 + 1 + b * 100 + c * 4 + e) with (400 * a + 100 * b + 4 * c + e + 1) by lia.
    rewrite leap_decomp by lia.
    destruct (Z.eqb_spec m 2) as [->|M2]; cbn [andb] in *.
    + change (DAYS_IN_MONTH 2) with 28 in *.
      destruct ((e =? 3) && _); lia.
    + lia.
Qed.

Lemma days_before_year_step y :
  days_before_year (y + 1) = days_before_year y + 365 + (if is_leap y then 1 else 0).
Proof.
  unfold days_before_year, is_leap.
  repeat match goal with |- context [?x =? ?y] => destruct (Z.eqb_spec x y) end;
  simpl; Z.div_mod_to_equations; lia.
Qed.

Lemma days_before_year_mono y1 y2 :
  y1 <= y2 -> days_before_year y1 <= days_before_year y2.
Proof.
  intros. unfold days_before_year. Z.div_mod_to_equations. lia.
Qed.

Lemma days_before_month_bounds y m d :
  1 <= m <= 12 -> 1 <= d <= days_in_month y m ->
  1 <= days_before_month y m + d <= 365 + (if is_leap y then 1 else 0).
Proof.
  intros Hm. unfold days_before_month, days_in_month.
  assert (M : m = 1 \/ m = 2 \/ m = 3 \/ m = 4 \/ m = 5 \/ m = 6 \/ m = 7 \/
              m = 8 \/ m = 9 \/ m = 10 \/ m = 11 \/ m = 12) by lia.
  destruct (is_leap y);
  repeat (destruct M as [-> | M]; [tables; lia|]); subst; tables; lia.
Qed.







Lemma toordinal_pos d : 1 <= year d -> fields_ok d -> 1 <= toordinal d.
Proof.
  intros Hy [Hm Hd]. unfold toordinal, ymd2ord.
  pose proof (days_before_month_bounds _ _ _ Hm Hd).
  pose proof (days_before_year_mono 1 (year d) Hy).
  change (days_before_year 1) with 0 in *. lia.
Qed.


(** Checks against the values [datetime] gives. *)
Example toordinal_2024_01_01 : toordinal (mkdate 2024 1 1) = 738886.
Proof. reflexivity. Qed.

Example ord2ymd_leap_day : ord2ymd 738945 = mkdate 2024 2 29.
Proof. reflexivity. Qed.

Example toordinal_max : toordinal (mkdate 9999 12 31) = MAXORDINAL.
Proof. reflexivity. Qed.

Example isocalendar_samples :
  isocalendar (mkdate 2023 12 25) = (2023, 52) /\
  isocalendar (mkdate 2024 1 8) = (2024, 2) /\
  isocalendar (mkdate 2021 1 3) = (2020, 53) /\
  isocalendar (mkdate 2024 12 30) = (2025, 1).
Proof. repeat split. Qed.

Example day_name_sample : day_name (mkdate 2024 1 8) = "Monday"%string.
Proof. reflexivity. Qed.

End CalendarFacts.

(* ================================================================== *)
(** * Facts about the strict parsers *)

Module StrictFacts.
Import Strict.

Lemma digit_val_digit n : digit_val (digit n) = Some (n mod 10).
Proof.
  pose proof (Z.mod_pos_bound n 10 ltac:(lia)) as B.
  unfold digit.
  assert (C : n mod 10 = 0 \/ n mod 10 = 1 \/ n mod 10 = 2 \/ n mod 10 = 3 \/
              n mod 10 = 4 \/ n mod 10 = 5 \/ n mod 10 = 6 \/ n mod 10 = 7 \/
              n mod 10 = 8 \/ n mod 10 = 9) by lia.
  repeat (destruct C as [-> | C]; [reflexivity|]). now rewrite C.
Qed.

Lemma digits_pad2 n acc rest :
  0 <= n <= 99 -> digits 2 (pad2 n ++ rest) acc = Some (100 * acc + n, rest).
Proof.
  intros Hn. unfold pad2. cbn [append digits].
  rewrite !digit_val_digit. do 2 f_equal. Z.div_mod_to_equations. lia.
Qed.

Lemma digits_pad4 n rest :
  0 <= n <= 9999 -> digits 4 (pad4 n ++ rest) 0 = Some (n, rest).
Proof.
  intros Hn. unfold pad4, pad2. cbn [append digits].
  rewrite !digit_val_digit. do 2 f_equal. Z.div_mod_to_equations. lia.
Qed.

Lemma valid_dateb_true d : valid_date d -> valid_dateb d = true.
Proof.
  intros (Hy & Hm & Hd). unfold valid_dateb.
  repeat (apply andb_true_intro; split); apply Z.leb_le; lia.
Qed.

(** The strict parser reads back what [isoformat] writes. *)
Lemma strict_parse_isoformat d : valid_date d -> parse_date (isoformat d) = Some d.
Proof.
  intros V. pose proof V as (Hy & Hm & Hd).
  assert (Hd31 : day d <= 31).
  { unfold days_in_month in Hd.
    assert (M : month d = 1 \/ month d = 2 \/ month d = 3 \/ month d = 4 \/
                month d = 5 \/ month d = 6 \/ month d = 7 \/ month d = 8 \/
                month d = 9 \/ month d = 10 \/ month d = 11 \/ month d = 12) by lia.
    destruct (is_leap (year d));
      repeat (destruct M as [E | M]; [rewrite E in Hd; cbn in Hd; lia|]);
      rewrite M in Hd; cbn in Hd; lia. }
  unfold parse_date, date_prefix, isoformat.
  rewrite digits_pad4 by lia. cbn [obind expect append Ascii.eqb Bool.eqb].
  rewrite digits_pad2 by lia. cbn [obind expect append Ascii.eqb Bool.eqb].
  change (pad2 (day d)) with (pad2 (day d) ++ EmptyString)%string.
  rewrite digits_pad2 by lia. cbn [obind].
  replace (100 * 0 + month d) with (month d) by lia.
  replace (100 * 0 + day d) with (day d) by lia.
  destruct d as [y m dd]; cbn [year month day] in *.
  now rewrite (valid_dateb_true _ V).
Qed.

(** So the ISO text determines the date. *)
Lemma isoformat_inj a b :
  valid_date a -> valid_date b -> isoformat a = isoformat b -> a = b.
Proof.
  intros Va Vb E. apply strict_parse_isoformat in Va, Vb.
  rewrite E in Va. congruence.
Qed.


End StrictFacts.

(* ================================================================== *)
(** * Facts about the order of dates and datetimes *)

Module OrderFacts.

Ltac zcmp :=
  repeat match goal with
         | |- context [Z.compare ?x ?y] => destruct (Z.compare_spec x y)
         end.

Lemma date_cmp_Lt a b : date_cmp a b = Lt <-> date_lt a b.
Proof.
  unfold date_cmp, date_lt, lex. zcmp; split; intros; try discriminate;
    try reflexivity; lia.
Qed.

Lemma date_cmp_Eq a b : date_cmp a b = Eq <-> date_eq a b.
Proof.
  unfold date_cmp, date_eq, lex. zcmp; split; intros; try discriminate;
    try reflexivity; lia.
Qed.

Lemma date_cmp_Gt a b : date_cmp a b = Gt <-> date_lt b a.
Proof.
  unfold date_cmp, date_lt, lex. zcmp; split; intros; try discriminate;
    try reflexivity; lia.
Qed.

Lemma date_leb_true a b : date_leb a b = true <-> date_lt a b \/ date_eq a b.
Proof.
  unfold date_leb, cmp_leb.
  destruct (date_cmp a b) eqn:E.
  - apply date_cmp_Eq in E. tauto.
  - apply date_cmp_Lt in E. tauto.
  - apply date_cmp_Gt in E. unfold date_lt, date_eq in *.
    split; [discriminate | lia].
Qed.


Lemma date_leb_trans a b c :
  date_leb a b = true -> date_leb b c = true -> date_leb a c = true.
Proof.
  rewrite !date_leb_true. unfold date_lt, date_eq. lia.
Qed.

Lemma datetime_cmp_Lt a b :
  datetime_cmp a b = Lt <->
  date_lt (dt_date a) (dt_date b) \/ (date_eq (dt_date a) (dt_date b) /\ time_lt a b).
Proof.
  unfold datetime_cmp.
  destruct (date_cmp (dt_date a) (dt_date b)) eqn:E; cbn [lex].
  - apply date_cmp_Eq in E. unfold time_lt, date_lt, date_eq in *.
    zcmp; cbn [lex]; split; intros; try discriminate; try reflexivity; lia.
  - apply date_cmp_Lt in E. tauto.
  - apply date_cmp_Gt in E. unfold date_lt, date_eq in *.
    split; [discriminate | lia].
Qed.

Lemma datetime_cmp_Eq a b :
  datetime_cmp a b = Eq <-> date_eq (dt_date a) (dt_date b) /\ time_eq a b.
Proof.
  unfold datetime_cmp.
  destruct (date_cmp (dt_date a) (dt_date b)) eqn:E; cbn [lex].
  - apply date_cmp_Eq in E. unfold time_eq, date_eq in *.
    zcmp; cbn [lex]; split; intros; try discriminate; try reflexivity; lia.
  - apply date_cmp_Lt in E. unfold date_lt, date_eq in *.
    split; [discriminate | lia].
  - apply date_cmp_Gt in E. unfold date_lt, date_eq in *.
    split; [discriminate | lia].
Qed.

Lemma datetime_cmp_Gt a b :
  datetime_cmp a b = Gt <->
  date_lt (dt_date b) (dt_date a) \/ (date_eq (dt_date a) (dt_date b) /\ time_lt b a).
Proof.
  unfold datetime_cmp.
  destruct (date_cmp (dt_date a) (dt_date b)) eqn:E; cbn [lex].
  - apply date_cmp_Eq in E. unfold time_lt, date_lt, date_eq in *.
    zcmp; cbn [lex]; split; intros; try discriminate; try reflexivity; lia.
  - apply date_cmp_Lt in E. unfold date_lt, date_eq in *.
    split; [discriminate | lia].
  - apply date_cmp_Gt in E. tauto.
Qed.

Lemma datetime_leb_true a b :
  datetime_leb a b = true <->
  date_lt (dt_date a) (dt_date b) \/
  (date_eq (dt_date a) (dt_date b) /\ (time_lt a b \/ time_eq a b)).
Proof.
  unfold datetime_leb, cmp_leb.
  destruct (datetime_cmp a b) eqn:E.
  - apply datetime_cmp_Eq in E. tauto.
  - apply datetime_cmp_Lt in E. tauto.
  - apply datetime_cmp_Gt in E. unfold date_lt, date_eq, time_lt, time_eq in *.
    split; [discriminate | lia].
Qed.

Lemma datetime_ltb_true a b :
  datetime_ltb a b = true <->
  date_lt (dt_date a) (dt_date b) \/ (date_eq (dt_date a) (dt_date b) /\ time_lt a b).
Proof.
  unfold datetime_ltb, cmp_ltb.
  destruct (datetime_cmp a b) eqn:E.
  - apply datetime_cmp_Eq in E. unfold date_lt, date_eq, time_lt, time_eq in *.
    split; [discriminate | lia].
  - apply datetime_cmp_Lt in E. tauto.
  - apply datetime_cmp_Gt in E. unfold date_lt, date_eq, time_lt in *.
    split; [discriminate | lia].
Qed.

(** A deadline passed at [now] has passed at every later instant. *)
Lemma datetime_leb_later t now now' :
  datetime_leb t now = true -> datetime_ltb now now' = true ->
  datetime_leb t now' = true.
Proof.
  rewrite !datetime_leb_true, datetime_ltb_true.
  unfold date_lt, date_eq, time_lt, time_eq. lia.
Qed.

(** The date of a later instant is not earlier. *)
Lemma date_leb_later d now now' :
  date_leb d (dt_date now) = true -> datetime_ltb now now' = true ->
  date_leb d (dt_date now') = true.
Proof.
  rewrite !date_leb_true, datetime_ltb_true.
  unfold date_lt, date_eq, time_lt. lia.
Qed.

End OrderFacts.

(* ================================================================== *)
(** * ReminderManager: due reminders stay due *)

Module ReminderFacts.
Import ReminderManager OrderFacts.

Section WithParser.
Variable strptime : strptime_fn.

Lemma dict_has_set k v d : dict_has k (dict_set k v d) = true.
Proof.
  unfold dict_has. induction d as [|[k' v'] d IH]; cbn.
  - now rewrite String.eqb_refl.
  - destruct (String.eqb_spec k k') as [->|N]; cbn.
    + now rewrite String.eqb_refl.
    + destruct (String.eqb_spec k k'); [contradiction | exact IH].
Qed.

Lemma load_completed file task :
  In task (load file) -> dict_has "completed" task = true.
Proof.
  destruct file as [data|]; cbn; [|contradiction].
  rewrite in_map_iff. intros (t & <- & _).
  destruct (dict_has "completed" t) eqn:E; cbn; [exact E | apply dict_has_set].
Qed.

(** After the test of [completed], nothing escapes the two [try] blocks. *)
Lemma check_task_returns now task :
  dict_has "completed" task = true ->
  exists n, check_task strptime now task = Ok n.
Proof.
  unfold dict_has, check_task, getitem.
  destruct (dict_get "completed" task) as [c|]; [intros _ | discriminate].
  cbn [bind]. destruct (negb (truthy c)); [|eauto].
  unfold try_except.
  repeat match goal with
         | |- context [match ?x with _ => _ end] => destruct x; cbn [bind]
         end; eauto.
Qed.

Lemma check_task_later now now' task text :
  datetime_ltb now now' = true ->
  check_task strptime now task = Ok (Some text) ->
  check_task strptime now' task = Ok (Some text).
Proof.
  intros Hlt. unfold check_task.
  destruct (getitem "completed" task) as [c|]; cbn [bind]; [|discriminate].
  destruct (negb (truthy c)); [|discriminate].
  destruct (getitem "time" task) as [time|]; cbn [bind try_except].
  2: discriminate.
  destruct (getitem "task" task) as [txt|]; cbn [bind].
  - destruct (strptime_of strptime time "%Y-%m-%d %H:%M") as [t1|]; cbn [bind try_except].
    + destruct (datetime_leb t1 now) eqn:L1; [|discriminate].
      intros H. now rewrite (datetime_leb_later _ _ _ L1 Hlt).
    + destruct (strptime_of strptime time "%Y-%m-%d") as [t2|]; cbn [bind try_except].
      * destruct (date_leb (dt_date t2) (dt_date now)) eqn:L2; [|discriminate].
        intros H. now rewrite (date_leb_later _ _ _ L2 Hlt).
      * discriminate.
  - destruct (strptime_of strptime time "%Y-%m-%d %H:%M") as [t1|]; cbn [bind try_except].
    + destruct (datetime_leb t1 now) eqn:L1; cbn [try_except].
      * destruct (strptime_of strptime time "%Y-%m-%d") as [t2|]; cbn [bind].
        -- destruct (date_leb (dt_date t2) (dt_date now)); discriminate.
        -- discriminate.
      * discriminate.
    + destruct (strptime_of strptime time "%Y-%m-%d") as [t2|]; cbn [bind try_except].
      * destruct (date_leb (dt_date t2) (dt_date now)); discriminate.
      * discriminate.
Qed.

Lemma check_loop_spec now tasks acc :
  Forall (fun task => dict_has "completed" task = true) tasks ->
  check_loop strptime now tasks acc = Ok (acc ++ notifications_of strptime now tasks).
Proof.
  revert acc. induction tasks as [|task rest IH]; intros acc H; cbn.
  - now rewrite app_nil_r.
  - inversion H as [|? ? Ht Hrest]; subst.
    destruct (check_task_returns now task Ht) as [n ->]. cbn [bind].
    rewrite IH by assumption.
    destruct n; [rewrite <- app_assoc|]; reflexivity.
Qed.

Lemma sublist_refl {A : Type} (l : list A) : sublist l l.
Proof. induction l; constructor; assumption. Qed.

Lemma sublist_app {A : Type} (l1 l1' l2 l2' : list A) :
  sublist l1 l1' -> sublist l2 l2' -> sublist (l1 ++ l2) (l1' ++ l2').
Proof.
  intros H1 H2. induction H1; cbn; try constructor; assumption.
Qed.

Lemma notifications_later now now' tasks :
  datetime_ltb now now' = true ->
  sublist (notifications_of strptime now tasks) (notifications_of strptime now' tasks).
Proof.
  intros Hlt. induction tasks as [|task rest IH]; cbn.
  - constructor.
  - apply sublist_app; [|exact IH].
    destruct (check_task strptime now task) as [[text|]|] eqn:E.
    + rewrite (check_task_later _ _ _ _ Hlt E). apply sublist_refl.
    + destruct (check_task strptime now' task) as [[text'|]|]; repeat constructor.
    + destruct (check_task strptime now' task) as [[text'|]|]; repeat constructor.
Qed.

(** C4. [check_reminders] is monotonic in the current time: at a later
    instant it returns, and every reminder of the list that was reported
    due is reported due again; the notifications of the earlier instant are
    kept, in their order. *)
Theorem check_reminders_monotone file now now' :
  datetime_ltb now now' = true ->
  exists due due',
    check_reminders strptime now file = Ok due /\
    check_reminders strptime now' file = Ok due' /\
    sublist due due' /\
    forall R text,
      In R (load file) ->
      check_task strptime now R = Ok (Some text) ->
      check_task strptime now' R = Ok (Some text).
Proof.
  intros Hlt.
  assert (Hc : Forall (fun task => dict_has "completed" task = true) (load file))
    by (apply Forall_forall; intros t Ht; exact (load_completed _ _ Ht)).
  exists (notifications_of strptime now (load file)),
         (notifications_of strptime now' (load file)).
  unfold check_reminders. rewrite !check_loop_spec by assumption. cbn [app].
  repeat split.
  - now apply notifications_later.
  - intros R text _. now apply check_task_later.
Qed.

End WithParser.

Lemma check_reminders_monotone_witness :
  datetime_ltb (mkdatetime (mkdate 2024 1 5) 10 0 0 0)
               (mkdatetime (mkdate 2024 1 6) 0 0 0 1) = true /\
  exists due due',
    check_reminders Strict.strptime (mkdatetime (mkdate 2024 1 5) 10 0 0 0)
      sample_reminders = Ok due /\
    check_reminders Strict.strptime (mkdatetime (mkdate 2024 1 6) 0 0 0 1)
      sample_reminders = Ok due' /\
    sublist due due' /\
    forall R text,
      In R (load sample_reminders) ->
      check_task Strict.strptime (mkdatetime (mkdate 2024 1 5) 10 0 0 0) R
      = Ok (Some text) ->
      check_task Strict.strptime (mkdatetime (mkdate 2024 1 6) 0 0 0 1) R
      = Ok (Some text).
Proof.
  exact (conj eq_refl
           (check_reminders_monotone Strict.strptime sample_reminders
              (mkdatetime (mkdate 2024 1 5) 10 0 0 0)
              (mkdatetime (mkdate 2024 1 6) 0 0 0 1) eq_refl)).
Defined.

(** The reminder dated without a time becomes due when its day starts. *)
Example check_reminders_sample :
  check_reminders Strict.strptime (mkdatetime (mkdate 2024 1 5) 10 0 0 0)
    sample_reminders = Ok [VStr "Call Mom"] /\
  check_reminders Strict.strptime (mkdatetime (mkdate 2024 1 6) 0 0 0 1)
    sample_reminders = Ok [VStr "Call Mom"; VStr "Pay rent"].
Proof. split; reflexivity. Qed.

End ReminderFacts.

(* ================================================================== *)
(** * GoalManager *)

Module GoalFacts.
Import GoalManager CalendarFacts.

Lemma dict_get_set k v d : dict_get k (dict_set k v d) = Some v.
Proof.
  induction d as [|[k' v'] d IH]; cbn.
  - now rewrite String.eqb_refl.
  - destruct (String.eqb_spec k k') as [->|N]; cbn.
    + now rewrite String.eqb_refl.
    + destruct (String.eqb_spec k k'); [contradiction | exact IH].
Qed.

Lemma toordinal_range d : valid_date d -> 1 <= toordinal d <= MAXORDINAL.
Proof.
  intros (Hy & Hm & Hd). split.
  - apply toordinal_pos; [lia | split; assumption].
  - unfold toordinal, ymd2ord.
    pose proof (days_before_month_bounds _ _ _ Hm Hd).
    pose proof (days_before_year_step (year d)).
    pose proof (days_before_year_mono (year d + 1) 10000 ltac:(lia)).
    change (days_before_year 10000) with MAXORDINAL in *. lia.
Qed.

Lemma ord2ymd_valid n : 1 <= n <= MAXORDINAL -> valid_date (ord2ymd n).
Proof.
  intros Hn. destruct (ord2ymd_fields n ltac:(lia)) as (Hy & Hm & Hd).
  repeat split; try lia.
  (* the year is at most 9999: a later year starts after MAXORDINAL *)
  destruct (Z_le_gt_dec (year (ord2ymd n)) 9999) as [|Hbig]; [assumption|].
  pose proof (toordinal_ord2ymd n ltac:(lia)) as E.
  unfold toordinal, ymd2ord in E.
  pose proof (days_before_month_bounds _ _ _ Hm Hd).
  pose proof (days_before_year_mono 10000 (year (ord2ymd n)) ltac:(lia)).
  change (days_before_year 10000) with MAXORDINAL in *. lia.
Qed.

(** A date plus a number of days, inside the range of [datetime.date]. *)
Lemma date_add_days_spec d n :
  valid_date d -> 1 <= toordinal d + n <= MAXORDINAL ->
  exists d', date_add_days d n = Ok d' /\ valid_date d' /\
             toordinal d' = toordinal d + n.
Proof.
  intros Hd Hn. pose proof (toordinal_range d Hd) as Hr.
  exists (ord2ymd (toordinal d + n)). unfold date_add_days.
  replace (Z.abs n <=? 999999999) with true
    by (symmetry; apply Z.leb_le; unfold MAXORDINAL in *; lia).
  replace (0 <? toordinal d + n) with true by (symmetry; apply Z.ltb_lt; lia).
  replace (toordinal d + n <=? MAXORDINAL) with true by (symmetry; apply Z.leb_le; lia).
  cbn [andb]. repeat split; try apply ord2ymd_valid; try apply toordinal_ord2ymd; lia.
Qed.

(** C7. A goal added on day [today] with [timeframe_months] months is
    persisted with [current_amount = 0] and a [target_date] that is exactly
    [30 * timeframe_months] days after [today]. *)
Theorem add_target_date today goal_name target_amount timeframe_months file :
  valid_date today ->
  1 <= toordinal today + 30 * timeframe_months <= MAXORDINAL ->
  exists target_date goal,
    add today goal_name target_amount timeframe_months file
      = (Ok tt, Some (load file ++ [goal])) /\
    dict_get "current_amount" goal = Some (VNum 0) /\
    dict_get "created" goal = Some (VStr (isoformat today)) /\
    dict_get "target_date" goal = Some (VStr (isoformat target_date)) /\
    valid_date target_date /\
    toordinal target_date = toordinal today + 30 * timeframe_months /\
    (timeframe_months = 12 -> toordinal target_date = toordinal today + 360).
Proof.
  intros Hd Hn.
  destruct (date_add_days_spec today _ Hd Hn) as (td & E & Hv & Ho).
  exists td. eexists. unfold add, save. rewrite E.
  split; [reflexivity|].
  cbn [dict_get String.eqb Ascii.eqb Bool.eqb].
  repeat split; try reflexivity; try apply Hv; lia.
Qed.

(** C6. With an index outside [0, len(goals)), [update_progress] raises
    nothing and leaves the goal file as it was. *)
Theorem update_progress_out_of_range file goal_index amount_added :
  goal_index < 0 \/ Z.of_nat (List.length (load file)) <= goal_index ->
  update_progress goal_index amount_added file = (Ok tt, file).
Proof.
  intros H. unfold update_progress.
  destruct (0 <=? goal_index) eqn:E0; cbn [andb]; [|reflexivity].
  destruct (goal_index <? Z.of_nat (List.length (load file))) eqn:E1; [|reflexivity].
  apply Z.leb_le in E0. apply Z.ltb_lt in E1. lia.
Qed.

(** ** Progress never goes down *)

Lemma no_less_saved_refl goal c :
  current_amount_of goal = Some c -> no_less_saved goal goal.
Proof. intros H. exists c, c. repeat split; auto. lra. Qed.

Lemma no_less_saved_trans g1 g2 g3 :
  no_less_saved g1 g2 -> no_less_saved g2 g3 -> no_less_saved g1 g3.
Proof.
  intros (a & b & Ha & Hb & Hab) (b' & c & Hb' & Hc & Hbc).
  rewrite Hb in Hb'. injection Hb' as <-.
  exists a, c. repeat split; auto. lra.
Qed.

Lemma add_to_current_spec amount_added goal c :
  current_amount_of goal = Some c ->
  exists goal', add_to_current amount_added goal = Ok goal' /\
                current_amount_of goal' = Some (c + amount_added)%Q.
Proof.
  unfold current_amount_of, add_to_current, getitem.
  destruct (dict_get "current_amount" goal) as [v|]; [|discriminate].
  cbn [bind].
  destruct (as_number v) as [q|]; [|discriminate].
  intros [= ->]. cbn [bind]. eexists. split; [reflexivity|].
  now rewrite dict_get_set.
Qed.

Lemma list_set_le (goals : list dict) i goal goal' :
  Forall (fun g => exists c, current_amount_of g = Some c) goals ->
  nth_error goals i = Some goal -> no_less_saved goal goal' ->
  Forall2 no_less_saved goals (list_set i goal' goals).
Proof.
  revert i. induction goals as [|g goals IH]; intros i Hall Hi Hle.
  - destruct i; discriminate.
  - inversion Hall as [|? ? [c Hc] Hrest]; subst.
    destruct i as [|i]; cbn in *.
    + injection Hi as ->. constructor; [assumption|].
      clear -Hrest. induction Hrest as [|x l [cx Hx] _ IHl]; constructor; auto.
      now apply no_less_saved_refl with cx.
    + constructor; [now apply no_less_saved_refl with c | now apply IH].
Qed.

Lemma update_progress_step file goal_index amount_added :
  Forall (fun g => exists c, current_amount_of g = Some c) (load file) ->
  (0 <= amount_added)%Q ->
  exists file', update_progress goal_index amount_added file = (Ok tt, file') /\
                Forall2 no_less_saved (load file) (load file').
Proof.
  intros Hall Hpos.
  assert (Hrefl : Forall2 no_less_saved (load file) (load file)).
  { clear -Hall. induction Hall as [|x l [cx Hx] _ IHl]; constructor; auto.
    now apply no_less_saved_refl with cx. }
  unfold update_progress.
  destruct ((0 <=? goal_index) && _); [|eauto].
  destruct (nth_error (load file) (Z.to_nat goal_index)) as [goal|] eqn:Hn; [|eauto].
  assert (Hc : exists c, current_amount_of goal = Some c).
  { rewrite Forall_forall in Hall. apply Hall. eapply nth_error_In; eauto. }
  destruct Hc as [c Hc].
  destruct (add_to_current_spec amount_added goal c Hc) as (goal' & -> & Hc').
  eexists. split; [reflexivity|]. cbn [save load].
  apply list_set_le with goal; auto.
  exists c, (c + amount_added)%Q. repeat split; auto. lra.
Qed.

Lemma no_less_saved_has (l l' : list dict) :
  Forall2 no_less_saved l l' ->
  Forall (fun g => exists c, current_amount_of g = Some c) l'.
Proof.
  induction 1 as [|g g' l l' (c & c' & _ & Hc' & _) _ IH]; constructor; eauto.
Qed.

Lemma Forall2_no_less_saved_trans (l1 l2 l3 : list dict) :
  Forall2 no_less_saved l1 l2 -> Forall2 no_less_saved l2 l3 ->
  Forall2 no_less_saved l1 l3.
Proof.
  intros H. revert l3. induction H as [|a b l1 l2 Hab _ IH]; intros l3 H23.
  - inversion H23. constructor.
  - inversion H23 as [|? c ? l3' Hbc Hrest]; subst.
    constructor; [eapply no_less_saved_trans; eauto | now apply IH].
Qed.

Lemma update_all_le calls : forall file,
  Forall (fun g => exists c, current_amount_of g = Some c) (load file) ->
  Forall (fun call => (0 <= snd call)%Q) calls ->
  exists file', update_all calls file = (Ok tt, file') /\
                Forall2 no_less_saved (load file) (load file').
Proof.
  induction calls as [|[i a] calls IH]; intros file Hall Hpos.
  - exists file. split; [reflexivity|].
    clear -Hall. induction Hall as [|x l [cx Hx] _ IHl]; constructor; auto.
    now apply no_less_saved_refl with cx.
  - inversion Hpos as [|? ? Ha Hrest]; subst. cbn [snd] in Ha.
    destruct (update_progress_step file i a Hall Ha) as (f1 & E1 & L1).
    destruct (IH f1 (no_less_saved_has _ _ L1) Hrest) as (f2 & E2 & L2).
    exists f2. cbn [update_all]. rewrite E1. split; [exact E2|].
    eapply Forall2_no_less_saved_trans; eauto.
Qed.

Lemma Forall2_nth_error {A B : Type} (R : A -> B -> Prop) l l' k a :
  Forall2 R l l' -> nth_error l k = Some a ->
  exists b, nth_error l' k = Some b /\ R a b.
Proof.
  intros H. revert k. induction H as [|x y l l' Hxy _ IH]; intros k Hk.
  - destruct k; discriminate.
  - destruct k as [|k]; cbn in *.
    + injection Hk as <-. eauto.
    + now apply IH.
Qed.

(** C5, as amended.  On a goal list whose goals carry a numeric
    [current_amount], every sequence of [update_progress] calls with
    non-negative amounts runs to its end, keeps every goal at its position,
    and no goal's [current_amount] decreases. *)
Theorem update_progress_monotone calls file k goal c :
  Forall (fun g => exists c, current_amount_of g = Some c) (load file) ->
  Forall (fun call => (0 <= snd call)%Q) calls ->
  nth_error (load file) k = Some goal ->
  current_amount_of goal = Some c ->
  exists file' goal' c',
    update_all calls file = (Ok tt, file') /\
    List.length (load file') = List.length (load file) /\
    nth_error (load file') k = Some goal' /\
    current_amount_of goal' = Some c' /\ (c <= c')%Q.
Proof.
  intros Hall Hpos Hk Hc.
  destruct (update_all_le calls file Hall Hpos) as (file' & E & L).
  destruct (Forall2_nth_error _ _ _ _ _ L Hk) as (goal' & Hk' & (c0 & c' & H0 & Hc' & Hle)).
  rewrite Hc in H0. injection H0 as <-.
  exists file', goal', c'. repeat split; auto.
  symmetry. eapply Forall2_length; eauto.
Qed.

Lemma update_progress_monotone_witness :
  Forall (fun g => exists c, current_amount_of g = Some c) (load sample_goals) /\
  Forall (fun call => (0 <= snd call)%Q) [(0, 50%Q); (7, 10%Q); (1, 0%Q); (0, 25%Q)] /\
  nth_error (load sample_goals) 0 = Some (sample_goal "Laptop" 100) /\
  current_amount_of (sample_goal "Laptop" 100) = Some 100%Q /\
  exists file' goal' c',
    update_all [(0, 50%Q); (7, 10%Q); (1, 0%Q); (0, 25%Q)] sample_goals = (Ok tt, file') /\
    List.length (load file') = List.length (load sample_goals) /\
    nth_error (load file') 0 = Some goal' /\
    current_amount_of goal' = Some c' /\ (100 <= c')%Q.
Proof.
  assert (H1 : Forall (fun g => exists c, current_amount_of g = Some c) (load sample_goals))
    by (repeat constructor; eexists; reflexivity).
  assert (H2 : Forall (fun call => (0 <= snd call)%Q)
                 [(0, 50%Q); (7, 10%Q); (1, 0%Q); (0, 25%Q)])
    by (repeat constructor; discriminate).
  refine (conj H1 (conj H2 (conj eq_refl (conj eq_refl _)))).
  exact (update_progress_monotone _ sample_goals 0 (sample_goal "Laptop" 100) 100%Q
           H1 H2 eq_refl eq_refl).
Defined.

(** C5, the claim as stated fails: a call with an index in range and a
    negative amount lowers [current_amount] (from 100 to 95). *)
Lemma update_progress_negative_counterexample :
  exists file' goal' c',
    update_progress 0 (-5) sample_goals = (Ok tt, file') /\
    nth_error (load sample_goals) 0 = Some (sample_goal "Laptop" 100) /\
    nth_error (load file') 0 = Some goal' /\
    current_amount_of goal' = Some c' /\ (c' < 100)%Q.
Proof.
  do 3 eexists. repeat split.
Qed.

Lemma update_progress_out_of_range_witness :
  (-1 < 0 \/ Z.of_nat (List.length (load sample_goals)) <= -1) /\
  update_progress (-1) 40 sample_goals = (Ok tt, sample_goals) /\
  (2 < 0 \/ Z.of_nat (List.length (load sample_goals)) <= 2) /\
  update_progress 2 40 sample_goals = (Ok tt, sample_goals).
Proof.
  assert (H1 : -1 < 0 \/ Z.of_nat (List.length (load sample_goals)) <= -1) by (left; lia).
  assert (H2 : 2 < 0 \/ Z.of_nat (List.length (load sample_goals)) <= 2)
    by (right; cbn; lia).
  exact (conj H1 (conj (update_progress_out_of_range sample_goals (-1) 40 H1)
           (conj H2 (update_progress_out_of_range sample_goals 2 40 H2)))).
Defined.

Lemma add_target_date_witness :
  valid_date (mkdate 2024 1 1) /\
  1 <= toordinal (mkdate 2024 1 1) + 30 * 12 <= MAXORDINAL /\
  exists target_date goal,
    add (mkdate 2024 1 1) "Laptop" 12000 12 sample_goals
      = (Ok tt, Some (load sample_goals ++ [goal])) /\
    dict_get "current_amount" goal = Some (VNum 0) /\
    dict_get "created" goal = Some (VStr (isoformat (mkdate 2024 1 1))) /\
    dict_get "target_date" goal = Some (VStr (isoformat target_date)) /\
    valid_date target_date /\
    toordinal target_date = toordinal (mkdate 2024 1 1) + 30 * 12 /\
    (12 = 12 -> toordinal target_date = toordinal (mkdate 2024 1 1) + 360).
Proof.
  assert (H1 : valid_date (mkdate 2024 1 1)) by (unfold valid_date; cbn; lia).
  assert (H2 : 1 <= toordinal (mkdate 2024 1 1) + 30 * 12 <= MAXORDINAL)
    by (vm_compute; split; discriminate).
  exact (conj H1 (conj H2
           (add_target_date (mkdate 2024 1 1) "Laptop" 12000 12 sample_goals H1 H2))).
Defined.

(** Twelve months are 360 days: a goal set on 2024-01-01 is due on
    2024-12-26, not on 2025-01-01. *)
Example add_twelve_months :
  add (mkdate 2024 1 1) "Laptop" 12000 12 None
  = (Ok tt, Some [sample_goal "Laptop" 0]).
Proof. reflexivity. Qed.

End GoalFacts.

(* ================================================================== *)
(** * Saving what was loaded *)

Module RoundTripFacts.







(** The text [ExpenseManager.add] writes for a date is canonical. *)
Lemma isoformat_cell_canonical d :
  valid_date d -> canonical_date Strict.parse_date (Text (isoformat d)).
Proof.
  intros V. exists d. split; [reflexivity | now apply StrictFacts.strict_parse_isoformat].
Qed.



(** An expense whose date does not parse loses it on the way. *)
Example unparseable_date_blanked :
  ExpenseManager.save
    (ExpenseManager.load Strict.parse_date
       (Some (mkdf true [mkrow "Tea" 20 (Text "yesterday")])))
  = Some (mkdf true [mkrow "Tea" 20 (Text EmptyString)]).
Proof. reflexivity. Qed.


End RoundTripFacts.

(* ================================================================== *)
(** * BudgetManager: the alert thresholds *)

Module BudgetFacts.
Import BudgetManager.








Lemma dict_get_set_other k k' v d :
  k <> k' -> dict_get k (dict_set k' v d) = dict_get k d.
Proof.
  intros N. induction d as [|[k0 v0] d IH]; cbn.
  - destruct (String.eqb_spec k k'); [contradiction | reflexivity].
  - destruct (String.eqb_spec k' k0) as [->|N0]; cbn.
    + destruct (String.eqb_spec k k0); [contradiction | reflexivity].
    + destruct (String.eqb_spec k k0); [reflexivity | exact IH].
Qed.


Section WithParsers.
Variable strptime : strptime_fn.
Variable parse : string -> option date.

(** The four outcomes of [get_budget_alerts]. *)
Lemma get_budget_alerts_shape file expenses_df :
  (exists e, get_budget_alerts strptime parse file expenses_df = Raise e) \/
  get_budget_alerts strptime parse file expenses_df = Ok [] \/
  (exists s b p, get_budget_alerts strptime parse file expenses_df
                 = Ok [BudgetExceeded s b p]) \/
  (exists s b p, get_budget_alerts strptime parse file expenses_df
                 = Ok [BudgetWarning p s b]).
Proof.
  unfold get_budget_alerts.
  destruct (negb (dict_has "weekly_budget" (load file))); [auto|].
  destruct (getitem "weekly_budget" (load file)); cbn [bind]; [|eauto].
  destruct (getitem "week_start" (load file)); cbn [bind]; [|eauto].
  destruct (strptime_of strptime a0 "%Y-%m-%d"); cbn [bind]; [|eauto].
  destruct (df_empty expenses_df || negb (has_Date expenses_df)); [auto|].
  destruct (as_number a); cbn [bind]; [|eauto].
  destruct (num_geb _ 100); [eauto 8|].
  destruct (num_geb _ 80); [eauto 8|auto].
Qed.

(** C10. [get_budget_alerts] returns at most one alert: never an
    "exceeded" alert together with a "warning" alert. *)
Theorem at_most_one_alert file expenses_df :
  match get_budget_alerts strptime parse file expenses_df with
  | Ok alerts =>
      (List.length alerts <= 1)%nat /\
      ~ (exists a b, In a alerts /\ In b alerts /\
                     is_exceeded a = true /\ is_warning b = true)
  | Raise _ => True
  end.
Proof.
  destruct (get_budget_alerts_shape file expenses_df)
    as [[e ->] | [-> | [(s & b & p & ->) | (s & b & p & ->)]]]; [exact I|..];
    (split; [cbn; lia|]); intros (x & y & Hx & Hy & Ex & Wy); cbn in Hx, Hy.
  - contradiction.
  - destruct Hy as [<-|[]]. discriminate.
  - destruct Hx as [<-|[]]. discriminate.
Qed.


End WithParsers.


(** The boundaries: 799 of 1000 raises no alert, 800 the warning, 1000 the
    exceeded alert. *)
Example budget_boundaries :
  get_budget_alerts Strict.strptime Strict.parse_date sample_budget (one_expense 799)
  = Ok [] /\
  (exists p, get_budget_alerts Strict.strptime Strict.parse_date sample_budget
               (one_expense 800)
             = Ok [BudgetWarning p (0 + 800) (VNum 1000)]) /\
  (exists p, get_budget_alerts Strict.strptime Strict.parse_date sample_budget
               (one_expense 1000)
             = Ok [BudgetExceeded (0 + 1000) (VNum 1000) p]).
Proof. split; [|split]; [|eexists|eexists]; reflexivity. Qed.

End BudgetFacts.

(* ================================================================== *)
(** * ExpenseManager: the spending insights *)

Module ExpenseFacts.
Import ExpenseManager CalendarFacts OrderFacts GoalFacts StrictFacts.

Lemma Qgtb_true a b : Qgtb a b = true <-> (b < a)%Q.
Proof.
  unfold Qgtb. rewrite negb_true_iff.
  destruct (Qle_bool a b) eqn:E.
  - apply Qle_bool_iff in E. split; [discriminate | lra].
  - split; [intros _ | reflexivity].
    apply Qnot_le_lt. intros H. apply Qle_bool_iff in H. congruence.
Qed.






Section WithParser.
Variable parse : string -> option date.
Hypothesis parse_valid : forall s d, parse s = Some d -> valid_date d.








End WithParser.



(** C3, the code at the failing input: the week of 2024-01-08 (100) is the
    most recent and is below the week of 2023-12-25 (200), yet the weeks are
    ordered by their number alone, 2 before 52, and a rise of 100 percent is
    reported. *)
Lemma week_trend_across_new_year :
  isocalendar (mkdate 2023 12 25) = (2023, 52) /\
  isocalendar (mkdate 2024 1 8) = (2024, 2) /\
  (week_total Strict.parse_date 2023 52 new_year_ledger == 200)%Q /\
  (week_total Strict.parse_date 2024 2 new_year_ledger == 100)%Q /\
  exists increase,
    get_spending_insights Strict.parse_date (mkdate 2024 1 10) new_year_ledger
    = Ok [HighestSpendingDay "Monday"; SpendingIncreased (Fin increase)] /\
    (increase == 100)%Q.
Proof.
  repeat (split; [vm_compute; reflexivity|]).
  eexists. split; vm_compute; reflexivity.
Qed.

End ExpenseFacts.

(* ================================================================== *)
(** * The restaurant filter *)

Module RestaurantFacts.
Import Restaurant.





Lemma mask_rows_filter (mask : restaurant -> result bool) (f : restaurant -> bool)
  (df : list restaurant) :
  Forall (fun r => mask r = Ok (f r)) df -> mask_rows mask df = Ok (filter f df).
Proof.
  induction 1 as [|r df Hr _ IH]; cbn; [reflexivity|].
  rewrite Hr, IH. cbn. now destruct (f r).
Qed.




Section WithLibrary.
Variable re_compile : re_compile_fn.
Variable to_float : string -> option Q.
Hypothesis literal : literal_patterns re_compile.


Lemma dashboard_search_plain df cuisine_query min_rating :
  plain cuisine_query = true -> Forall numeric_rating df ->
  dashboard_search re_compile df cuisine_query min_rating
  = Ok (filter (dashboard_keeps cuisine_query min_rating) df).
Proof.
  intros Hp Hn. unfold dashboard_search.
  destruct (literal cuisine_query Hp) as [_ (m & -> & Hm)].
  cbn [bind]. apply mask_rows_filter.
  apply Forall_forall. intros r Hr. rewrite Forall_forall in Hn.
  specialize (Hn r Hr). unfold numeric_rating in Hn. unfold dashboard_keeps.
  assert (Cell : forall c,
    contains_na_false m c
    = contains_na_false (fun s => contains (lower cuisine_query) (lower s)) c)
    by (intros [text|]; cbn; [apply Hm | reflexivity]).
  rewrite !Cell.
  destruct (rating r) as [q|t|]; [| contradiction |]; cbn [rating_ge bind].
  - reflexivity.
  - now rewrite andb_false_r.
Qed.


End WithLibrary.

Lemma re_compile_plain_literal : literal_patterns re_compile_plain.
Proof.
  intros pat Hp. unfold re_compile_plain. rewrite Hp. split; eexists; split; reflexivity.
Qed.



Example keyword_normalised :
  lower (strip "  PiZZa ") = "pizza"%string /\
  strip "   " = EmptyString /\
  contains "zz" "pizza" = true /\
  contains "za " "pizza" = false /\
  plain "pizza" = true /\
  plain "c++" = false.
Proof. repeat split. Qed.

(** The comparison of ratings is inclusive: 4.0 reaches a minimum of 4.0 and
    not one of 4.1; a row without a rating is dropped as soon as the minimum
    is positive. *)
Example rating_inclusive :
  filter_restaurants re_compile_plain [rated 4.0; unrated] "PIZZA" 4.0
  = Ok [rated 4.0] /\
  filter_restaurants re_compile_plain [rated 4.0; unrated] "PIZZA" 4.1 = Ok [] /\
  filter_restaurants re_compile_plain [rated 4.0; unrated] "indian" 0 = Ok [unrated] /\
  filter_restaurants re_compile_plain [rated 4.0; unrated] "indian" 0.1 = Ok [].
Proof. repeat split; vm_compute; reflexivity. Qed.

End RestaurantFacts.

(* ================================================================== *)
(** * ReminderManager: notifications, additions and the Toggle button *)

Module ReminderMore.
Import ReminderManager ReminderFacts.

Lemma load_fixed tasks :
  Forall (fun task => dict_has "completed" task = true) tasks ->
  load (Some tasks) = tasks.
Proof.
  intros H. cbn [load]. rewrite <- (map_id tasks) at 2.
  apply map_ext_in. intros t Ht. rewrite Forall_forall in H.
  now rewrite (H t Ht).
Qed.

Lemma load_all_completed file :
  Forall (fun task => dict_has "completed" task = true) (load file).
Proof. apply Forall_forall. intros t Ht. exact (load_completed _ _ Ht). Qed.

Lemma notifications_app strptime now l1 l2 :
  notifications_of strptime now (l1 ++ l2)
  = notifications_of strptime now l1 ++ notifications_of strptime now l2.
Proof. unfold notifications_of. apply flat_map_app. Qed.


Lemma count_pending_total tasks :
  Forall (fun task => dict_has "completed" task = true) tasks ->
  exists n, count_pending tasks = Ok n.
Proof.
  induction 1 as [|t tasks Ht _ [n IH]]; cbn; [eauto|].
  unfold dict_has, getitem in *.
  destruct (dict_get "completed" t); [|discriminate].
  cbn [bind]. rewrite IH. cbn [bind]. eauto.
Qed.



(** ** Adding a reminder *)

Lemma new_reminder_completed task_text date_time :
  dict_has "completed" (new_reminder task_text date_time) = true.
Proof. reflexivity. Qed.

Lemma load_after_add task_text date_time file :
  load (snd (add task_text date_time file))
  = load file ++ [new_reminder task_text date_time].
Proof.
  unfold add, save. cbn [snd]. apply load_fixed.
  apply Forall_app. split; [apply load_all_completed|].
  repeat constructor.
Qed.

Lemma count_pending_app l1 l2 n1 n2 :
  count_pending l1 = Ok n1 -> count_pending l2 = Ok n2 ->
  count_pending (l1 ++ l2) = Ok (n1 + n2)%nat.
Proof.
  revert n1. induction l1 as [|t l1 IH]; intros n1; cbn.
  - intros [= <-]. auto.
  - destruct (getitem "completed" t) as [c|]; cbn [bind]; [|discriminate].
    destruct (count_pending l1) as [m|] eqn:E; cbn [bind]; [|discriminate].
    intros [= <-] H2. rewrite (IH m eq_refl H2). cbn [bind].
    now destruct (negb (truthy c)).
Qed.

(** X2. [add] appends one pending record, with the text stripped, and
    keeps the records that [load] returned before it; the number of
    pending reminders grows by one. *)
Theorem add_appends_pending task_text date_time file :
  fst (add task_text date_time file) = Ok tt /\
  load (snd (add task_text date_time file))
  = load file ++ [new_reminder task_text date_time] /\
  exists pending,
    pending_reminders file = Ok pending /\
    pending_reminders (snd (add task_text date_time file)) = Ok (S pending).
Proof.
  split; [reflexivity|]. split; [apply load_after_add|].
  destruct (count_pending_total _ (load_all_completed file)) as [n Hn].
  exists n. split; [exact Hn|].
  unfold pending_reminders. rewrite load_after_add.
  rewrite (count_pending_app _ [new_reminder task_text date_time] n 1%nat Hn eq_refl).
  f_equal. lia.
Qed.

(** X3. A reminder added with a time in the format of the page is
    notified from the instant of its time on, and not before; the
    notifications of the reminders already there are the same, in front
    of it. *)
Theorem added_reminder_notified (strptime : strptime_fn) now task_text date_time
  file due_time :
  strptime date_time "%Y-%m-%d %H:%M"%string = Some due_time ->
  exists due,
    check_reminders strptime now file = Ok due /\
    check_reminders strptime now (snd (add task_text date_time file))
    = Ok (due ++ if datetime_leb due_time now
                 then [VStr (strip task_text)] else []).
Proof.
  intros Hp.
  exists (notifications_of strptime now (load file)).
  unfold check_reminders.
  rewrite check_loop_spec by apply load_all_completed.
  rewrite load_after_add.
  rewrite check_loop_spec
    by (apply Forall_app; split; [apply load_all_completed | repeat constructor]).
  cbn [app]. split; [reflexivity|]. f_equal.
  rewrite notifications_app. f_equal.
  unfold notifications_of. cbn [flat_map]. rewrite app_nil_r.
  unfold check_task, new_reminder, getitem, strptime_of.
  cbn [dict_get String.eqb Ascii.eqb Bool.eqb bind truthy negb as_string].
  rewrite Hp. cbn [bind].
  destruct (datetime_leb due_time now); reflexivity.
Qed.

Lemma added_reminder_notified_witness :
  Strict.strptime "2024-01-05 09:00"%string "%Y-%m-%d %H:%M"%string
  = Some (mkdatetime (mkdate 2024 1 5) 9 0 0 0) /\
  exists due,
    check_reminders Strict.strptime (mkdatetime (mkdate 2024 1 5) 9 0 0 0)
      sample_reminders = Ok due /\
    check_reminders Strict.strptime (mkdatetime (mkdate 2024 1 5) 9 0 0 0)
      (snd (add "  Dentist " "2024-01-05 09:00" sample_reminders))
    = Ok (due ++ if datetime_leb (mkdatetime (mkdate 2024 1 5) 9 0 0 0)
                      (mkdatetime (mkdate 2024 1 5) 9 0 0 0)
                 then [VStr (strip "  Dentist ")] else []).
Proof.
  exact (conj eq_refl
           (added_reminder_notified Strict.strptime
              (mkdatetime (mkdate 2024 1 5) 9 0 0 0) "  Dentist "
              "2024-01-05 09:00" sample_reminders
              (mkdatetime (mkdate 2024 1 5) 9 0 0 0) eq_refl)).
Defined.

(** ** The Toggle button *)

Lemma filtered_tasks_spec v tasks : forall from,
  Forall (fun task => dict_has "completed" task = true) tasks ->
  exists shown,
    filtered_tasks v tasks from = Ok shown /\
    forall p, In p shown ->
      exists t c,
        nth_error tasks (p - from) = Some t /\ (from <= p)%nat /\
        dict_get "completed" t = Some c /\
        match v with
        | All => True
        | Pending => truthy c = false
        | Completed => truthy c = true
        end.
Proof.
  induction tasks as [|t tasks IH]; intros from H.
  - exists []. split; [reflexivity | intros p []].
  - inversion H as [|? ? Ht Hrest]; subst.
    destruct (IH (S from) Hrest) as (shown & E & Hs).
    unfold dict_has in Ht.
    destruct (dict_get "completed" t) as [c|] eqn:Ec; [|discriminate].
    assert (Here : exists t0 c0, nth_error (t :: tasks) (from - from) = Some t0 /\
                     (from <= from)%nat /\ dict_get "completed" t0 = Some c0 /\ c0 = c)
      by (exists t, c; rewrite Nat.sub_diag; auto).
    assert (There : forall p, In p shown ->
              exists t0 c0, nth_error (t :: tasks) (p - from) = Some t0 /\
                (from <= p)%nat /\ dict_get "completed" t0 = Some c0 /\
                match v with
                | All => True
                | Pending => truthy c0 = false
                | Completed => truthy c0 = true
                end).
    { intros p Hp. destruct (Hs p Hp) as (t0 & c0 & Hn & Hle & Hc & Hv).
      exists t0, c0. replace (p - from)%nat with (S (p - S from)) by lia.
      repeat split; auto. lia. }
    destruct Here as (t0 & c0 & Hn0 & Hle0 & Hc0 & ->).
    cbn [filtered_tasks]. unfold getitem. rewrite Ec, E.
    destruct v; cbn [bind].
    + eexists. split; [reflexivity|]. intros p [<-|Hp]; [exists t0, c; auto | auto].
    + destruct (truthy c) eqn:Tc; cbn [negb]; eexists; (split; [reflexivity|]).
      * exact There.
      * intros p [<-|Hp]; [exists t0, c; auto | auto].
    + destruct (truthy c) eqn:Tc; eexists; (split; [reflexivity|]).
      * intros p [<-|Hp]; [exists t0, c; auto | auto].
      * exact There.
Qed.

Lemma replace_at_length i task tasks :
  List.length (replace_at i task tasks) = List.length tasks.
Proof.
  revert i. induction tasks as [|t tasks IH]; intros [|i]; cbn; auto.
Qed.

Lemma replace_at_completed i task tasks :
  dict_has "completed" task = true ->
  Forall (fun t => dict_has "completed" t = true) tasks ->
  Forall (fun t => dict_has "completed" t = true) (replace_at i task tasks).
Proof.
  intros Ht H. revert i. induction H as [|t tasks Hc Hrest IH]; intros [|i]; cbn;
    constructor; auto.
Qed.

Lemma count_pending_replace tasks : forall p n t c,
  count_pending tasks = Ok n ->
  nth_error tasks p = Some t -> dict_get "completed" t = Some c ->
  count_pending
    (replace_at p (dict_set "completed" (VBool (negb (truthy c))) t) tasks)
  = Ok (if truthy c then S n else (n - 1)%nat) /\
  (truthy c = false -> (1 <= n)%nat).
Proof.
  induction tasks as [|t0 tasks IH]; intros p n t c Hn Hp Hc.
  - destruct p; discriminate.
  - cbn [count_pending] in Hn. unfold getitem in Hn.
    destruct (dict_get "completed" t0) as [c0|] eqn:E0; cbn [bind] in Hn; [|discriminate].
    destruct (count_pending tasks) as [m|] eqn:Em; cbn [bind] in Hn; [|discriminate].
    injection Hn as <-.
    destruct p as [|p]; cbn [nth_error replace_at count_pending] in *.
    + injection Hp as ->. rewrite Hc in E0. injection E0 as <-.
      unfold getitem. rewrite GoalFacts.dict_get_set, Em. cbn [bind truthy].
      destruct (truthy c); cbn [negb]; split; try discriminate; try reflexivity;
        try (intros _; lia); try (f_equal; lia).
    + destruct (IH p m t c eq_refl Hp Hc) as [-> Hone].
      unfold getitem. rewrite E0. cbn [bind]. split.
      * destruct (truthy c) eqn:Tc; destruct (negb (truthy c0)); try reflexivity.
        specialize (Hone eq_refl). f_equal. lia.
      * intros Tc. specialize (Hone Tc). destruct (negb (truthy c0)); lia.
Qed.

(** X4. The Toggle button never raises and keeps the number of
    reminders.  On a row of the Pending view it leaves one pending
    reminder less, on a row of the Completed view one more; past the last
    row it does nothing. *)
Theorem toggle_moves_one v i file :
  exists shown pending file',
    filtered_tasks v (load file) 0 = Ok shown /\
    pending_reminders file = Ok pending /\
    toggle v i file = (Ok tt, file') /\
    List.length (load file') = List.length (load file) /\
    ((List.length shown <= i)%nat -> file' = file) /\
    ((i < List.length shown)%nat -> v = Pending ->
     (1 <= pending)%nat /\ pending_reminders file' = Ok (pending - 1)%nat) /\
    ((i < List.length shown)%nat -> v = Completed ->
     pending_reminders file' = Ok (S pending)).
Proof.
  pose proof (load_all_completed file) as Hall.
  destruct (filtered_tasks_spec v (load file) 0 Hall) as (shown & Es & Hs).
  destruct (count_pending_total _ Hall) as [n Hn].
  exists shown, n. unfold toggle, pending_reminders. rewrite Es.
  destruct (nth_error shown i) as [p|] eqn:Ei.
  - assert (Hi : (i < List.length shown)%nat)
      by (apply nth_error_Some; congruence).
    destruct (Hs p (nth_error_In _ _ Ei)) as (t & c & Hp & _ & Hc & Hv).
    rewrite Nat.sub_0_r in Hp. rewrite Hp. unfold getitem. rewrite Hc.
    eexists. split; [reflexivity|]. split; [exact Hn|]. split; [reflexivity|].
    assert (Hall' : Forall (fun t => dict_has "completed" t = true)
              (replace_at p (dict_set "completed" (VBool (negb (truthy c))) t)
                 (load file)))
      by (apply replace_at_completed; [apply dict_has_set | exact Hall]).
    unfold save. rewrite (load_fixed _ Hall').
    destruct (count_pending_replace _ p n t c Hn Hp Hc) as [Ec Hone].
    split; [apply replace_at_length|]. split; [lia|]. split.
    + intros _ ->. cbv beta iota in Hv. rewrite Hv in Ec |- *.
      split; [exact (Hone Hv) | exact Ec].
    + intros _ ->. cbv beta iota in Hv. rewrite Hv in Ec |- *. exact Ec.
  - assert (Hi : (List.length shown <= i)%nat) by (now apply nth_error_None).
    exists file. repeat split; auto; lia.
Qed.

Lemma dict_set_same k v d : dict_get k d = Some v -> dict_set k v d = d.
Proof.
  induction d as [|[k' v'] d IH]; cbn; [discriminate|].
  destruct (String.eqb_spec k k') as [->|N].
  - now intros [= ->].
  - intros H. now rewrite IH.
Qed.

Lemma dict_set_twice k v w d : dict_set k w (dict_set k v d) = dict_set k w d.
Proof.
  induction d as [|[k' v'] d IH]; cbn.
  - now rewrite String.eqb_refl.
  - destruct (String.eqb_spec k k') as [->|N]; cbn.
    + now rewrite String.eqb_refl.
    + destruct (String.eqb_spec k k'); [contradiction | now rewrite IH].
Qed.

Lemma filtered_all tasks : forall from,
  Forall (fun task => dict_has "completed" task = true) tasks ->
  filtered_tasks All tasks from = Ok (seq from (List.length tasks)).
Proof.
  induction tasks as [|t tasks IH]; intros from H; cbn; [reflexivity|].
  inversion H; subst. now rewrite IH.
Qed.

Lemma replace_at_nth i task tasks :
  (i < List.length tasks)%nat -> nth_error (replace_at i task tasks) i = Some task.
Proof.
  revert i. induction tasks as [|t tasks IH]; intros [|i]; cbn; try lia; auto.
  intros H. apply IH. lia.
Qed.

Lemma replace_at_twice i a b tasks :
  replace_at i b (replace_at i a tasks) = replace_at i b tasks.
Proof.
  revert i. induction tasks as [|t tasks IH]; intros [|i]; cbn; auto.
  now rewrite IH.
Qed.

Lemma replace_at_same i task tasks :
  nth_error tasks i = Some task -> replace_at i task tasks = tasks.
Proof.
  revert i. induction tasks as [|t tasks IH]; intros [|i]; cbn; try discriminate.
  - now intros [= ->].
  - intros H. now rewrite IH.
Qed.

(** X5. In the view of all reminders, pressing Toggle on the same row a
    second time brings back the reminders as they were loaded, when the
    [completed] fields are JSON booleans. *)
Theorem toggle_twice i file :
  Forall completed_is_bool (load file) ->
  load (snd (toggle All i (snd (toggle All i file)))) = load file.
Proof.
  intros Hb. pose proof (load_all_completed file) as Hall.
  unfold toggle at 2. rewrite (filtered_all _ 0 Hall).
  destruct (nth_error (seq 0 (List.length (load file))) i) as [p|] eqn:Ei;
    cbn [snd].
  2:{ unfold toggle. rewrite (filtered_all _ 0 Hall), Ei. reflexivity. }
  assert (Hi : (i < List.length (load file))%nat).
  { assert (H : nth_error (seq 0 (List.length (load file))) i <> None) by congruence.
    apply nth_error_Some in H. now rewrite length_seq in H. }
  assert (p = i) as ->.
  { rewrite nth_error_nth' with (d := O) in Ei by (now rewrite length_seq).
    rewrite seq_nth in Ei by assumption. now injection Ei as <-. }
  destruct (nth_error (load file) i) as [t|] eqn:Et.
  2:{ apply nth_error_None in Et. lia. }
  rewrite Forall_forall in Hb.
  destruct (Hb t (nth_error_In _ _ Et)) as [b Hc].
  unfold getitem. rewrite Hc. cbn [snd truthy].
  set (t1 := dict_set "completed" (VBool (negb b)) t).
  set (tasks1 := replace_at i t1 (load file)).
  assert (Hall1 : Forall (fun t => dict_has "completed" t = true) tasks1)
    by (apply replace_at_completed; [apply dict_has_set | exact Hall]).
  unfold toggle, save. rewrite (load_fixed _ Hall1).
  rewrite (filtered_all _ 0 Hall1).
  unfold tasks1 at 1. rewrite replace_at_length, Ei.
  unfold tasks1 at 1. rewrite replace_at_nth by assumption.
  unfold getitem, t1 at 1. rewrite GoalFacts.dict_get_set. cbn [snd truthy].
  assert (Hall2 : Forall (fun t => dict_has "completed" t = true)
            (replace_at i (dict_set "completed" (VBool (negb (negb b))) t1) tasks1))
    by (apply replace_at_completed; [apply dict_has_set | exact Hall1]).
  rewrite (load_fixed _ Hall2).
  unfold tasks1, t1. rewrite replace_at_twice, dict_set_twice, negb_involutive.
  rewrite (dict_set_same _ _ _ Hc). now apply replace_at_same.
Qed.

Lemma toggle_twice_witness :
  Forall completed_is_bool (load sample_reminders) /\
  load (snd (toggle All 1 (snd (toggle All 1 sample_reminders))))
  = load sample_reminders.
Proof.
  assert (H : Forall completed_is_bool (load sample_reminders))
    by (repeat constructor; eexists; reflexivity).
  exact (conj H (toggle_twice 1 sample_reminders H)).
Defined.

End ReminderMore.

(* ================================================================== *)
(** * GoalManager: adding, updating and projecting goals *)

Module GoalMore.
Import GoalManager GoalFacts CalendarFacts.

(** X6. [add] succeeds exactly when the target date, [30 *
    timeframe_months] days from today, is a date of the calendar;
    otherwise it raises [OverflowError] and writes nothing. *)
Theorem add_rejects_out_of_range today goal_name target_amount timeframe_months
  file :
  valid_date today ->
  (fst (add today goal_name target_amount timeframe_months file) = Ok tt <->
   1 <= toordinal today + 30 * timeframe_months <= MAXORDINAL) /\
  (~ 1 <= toordinal today + 30 * timeframe_months <= MAXORDINAL ->
   add today goal_name target_amount timeframe_months file
   = (Raise OverflowError, file)).
Proof.
  intros V.
  assert (Out : ~ 1 <= toordinal today + 30 * timeframe_months <= MAXORDINAL ->
                date_add_days today (30 * timeframe_months) = Raise OverflowError).
  { intros H. unfold date_add_days.
    destruct (Z.abs (30 * timeframe_months) <=? 999999999); [|reflexivity].
    destruct (0 <? toordinal today + 30 * timeframe_months) eqn:E1;
      [|reflexivity].
    destruct (toordinal today + 30 * timeframe_months <=? MAXORDINAL) eqn:E2;
      [|reflexivity].
    apply Z.ltb_lt in E1. apply Z.leb_le in E2. lia. }
  split; [split|].
  - intros H.
    destruct (Z_le_dec 1 (toordinal today + 30 * timeframe_months));
      [destruct (Z_le_dec (toordinal today + 30 * timeframe_months) MAXORDINAL)|];
      try lia; exfalso; unfold add in H; rewrite Out in H by lia; discriminate.
  - intros H. destruct (date_add_days_spec today _ V H) as (td & E & _).
    unfold add. now rewrite E.
  - intros H. unfold add. now rewrite Out.
Qed.

Lemma add_rejects_out_of_range_witness :
  valid_date (mkdate 2024 1 1) /\
  (fst (add (mkdate 2024 1 1) "Castle" 5 100000 sample_goals) = Ok tt <->
   1 <= toordinal (mkdate 2024 1 1) + 30 * 100000 <= MAXORDINAL) /\
  (~ 1 <= toordinal (mkdate 2024 1 1) + 30 * 100000 <= MAXORDINAL ->
   add (mkdate 2024 1 1) "Castle" 5 100000 sample_goals
   = (Raise OverflowError, sample_goals)).
Proof.
  assert (H : valid_date (mkdate 2024 1 1)) by (unfold valid_date; cbn; lia).
  exact (conj H (add_rejects_out_of_range (mkdate 2024 1 1) "Castle" 5 100000
                   sample_goals H)).
Defined.

(** ** One update *)

Lemma list_set_length {A : Type} i (a : A) l :
  List.length (list_set i a l) = List.length l.
Proof. revert i. induction l as [|x l IH]; intros [|i]; cbn; auto. Qed.

Lemma list_set_other {A : Type} i j (a : A) l :
  i <> j -> nth_error (list_set i a l) j = nth_error l j.
Proof.
  revert i j. induction l as [|x l IH]; intros [|i] [|j] N; cbn; auto;
    try contradiction.
Qed.

Lemma list_set_here {A : Type} i (a : A) l :
  (i < List.length l)%nat -> nth_error (list_set i a l) i = Some a.
Proof.
  revert i. induction l as [|x l IH]; intros [|i]; cbn; try lia; auto.
  intros H. apply IH. lia.
Qed.

Lemma dict_set_keys k v d :
  dict_has k d = true -> map fst (dict_set k v d) = map fst d.
Proof.
  unfold dict_has. induction d as [|[k' v'] d IH]; cbn; [discriminate|].
  destruct (String.eqb_spec k k') as [->|N]; cbn; [reflexivity|].
  intros H. now rewrite IH.
Qed.

(** X7. An update in range adds the amount to the [current_amount] of
    the goal at the index and touches nothing else: the other fields of
    the goal and their order, and the other goals, are as they were. *)
Theorem update_progress_touches_one file goal_index amount_added goal c :
  0 <= goal_index ->
  nth_error (load file) (Z.to_nat goal_index) = Some goal ->
  current_amount_of goal = Some c ->
  exists file' goal',
    update_progress goal_index amount_added file = (Ok tt, file') /\
    List.length (load file') = List.length (load file) /\
    nth_error (load file') (Z.to_nat goal_index) = Some goal' /\
    current_amount_of goal' = Some (c + amount_added)%Q /\
    map fst goal' = map fst goal /\
    (forall k, k <> "current_amount"%string -> dict_get k goal' = dict_get k goal) /\
    (forall j, j <> Z.to_nat goal_index ->
               nth_error (load file') j = nth_error (load file) j).
Proof.
  intros H0 Hn Hc.
  assert (Hlt : (Z.to_nat goal_index < List.length (load file))%nat)
    by (apply nth_error_Some; congruence).
  destruct (add_to_current_spec amount_added goal c Hc) as (goal' & E & Hc').
  exists (Some (list_set (Z.to_nat goal_index) goal' (load file))), goal'.
  unfold update_progress.
  replace (0 <=? goal_index) with true by (symmetry; apply Z.leb_le; lia).
  replace (goal_index <? Z.of_nat (List.length (load file))) with true
    by (symmetry; apply Z.ltb_lt; lia).
  cbn [andb]. rewrite Hn, E. unfold save. cbn [load].
  split; [reflexivity|]. split; [apply list_set_length|].
  split; [now apply list_set_here|]. split; [exact Hc'|].
  unfold add_to_current, getitem, current_amount_of in *.
  destruct (dict_get "current_amount" goal) as [v|] eqn:Ev; [|discriminate].
  cbn [bind] in E. destruct (as_number v) as [q|]; [|discriminate].
  cbn [bind] in E. injection E as <-.
  split; [apply dict_set_keys; unfold dict_has; now rewrite Ev|].
  split.
  - intros k Hk. now apply BudgetFacts.dict_get_set_other.
  - intros j Hj. apply list_set_other. congruence.
Qed.

Lemma update_progress_touches_one_witness :
  0 <= 1 /\
  nth_error (load sample_goals) (Z.to_nat 1) = Some (sample_goal "Trip" 0) /\
  current_amount_of (sample_goal "Trip" 0) = Some 0%Q /\
  exists file' goal',
    update_progress 1 250 sample_goals = (Ok tt, file') /\
    List.length (load file') = List.length (load sample_goals) /\
    nth_error (load file') (Z.to_nat 1) = Some goal' /\
    current_amount_of goal' = Some (0 + 250)%Q /\
    map fst goal' = map fst (sample_goal "Trip" 0) /\
    (forall k, k <> "current_amount"%string ->
               dict_get k goal' = dict_get k (sample_goal "Trip" 0)) /\
    (forall j, j <> Z.to_nat 1 ->
               nth_error (load file') j = nth_error (load sample_goals) j).
Proof.
  assert (H0 : 0 <= 1) by lia.
  exact (conj H0 (conj eq_refl (conj eq_refl
           (update_progress_touches_one sample_goals 1 250
              (sample_goal "Trip" 0) 0%Q H0 eq_refl eq_refl)))).
Defined.

(** X8. An update of a goal that has no numeric [current_amount] raises
    and writes nothing: [KeyError] when the field is missing, [TypeError]
    when it is a text or null. *)
Theorem update_progress_bad_record file goal_index amount_added goal :
  0 <= goal_index ->
  nth_error (load file) (Z.to_nat goal_index) = Some goal ->
  current_amount_of goal = None ->
  exists e,
    update_progress goal_index amount_added file = (Raise e, file) /\
    (dict_get "current_amount" goal = None -> e = KeyError "current_amount") /\
    (dict_get "current_amount" goal <> None -> e = TypeError).
Proof.
  intros H0 Hn Hc.
  assert (Hlt : (Z.to_nat goal_index < List.length (load file))%nat)
    by (apply nth_error_Some; congruence).
  unfold update_progress.
  replace (0 <=? goal_index) with true by (symmetry; apply Z.leb_le; lia).
  replace (goal_index <? Z.of_nat (List.length (load file))) with true
    by (symmetry; apply Z.ltb_lt; lia).
  cbn [andb]. rewrite Hn. unfold add_to_current, getitem, current_amount_of in *.
  destruct (dict_get "current_amount" goal) as [v|]; cbn [bind].
  - destruct v as [|[]|q|t]; cbn [as_number bind] in *; try discriminate;
      (eexists; split; [reflexivity|]; split; [discriminate | reflexivity]).
  - eexists. split; [reflexivity|]. split; [reflexivity | congruence].
Qed.

Lemma update_progress_bad_record_witness :
  0 <= 0 /\
  nth_error (load (Some [[("name", VStr "Bike"); ("current_amount", VNull)]%string]))
    (Z.to_nat 0)
  = Some [("name", VStr "Bike"); ("current_amount", VNull)]%string /\
  current_amount_of [("name", VStr "Bike"); ("current_amount", VNull)]%string = None /\
  exists e,
    update_progress 0 10
      (Some [[("name", VStr "Bike"); ("current_amount", VNull)]%string])
    = (Raise e, Some [[("name", VStr "Bike"); ("current_amount", VNull)]%string]) /\
    (dict_get "current_amount" [("name", VStr "Bike"); ("current_amount", VNull)]%string
     = None -> e = KeyError "current_amount") /\
    (dict_get "current_amount" [("name", VStr "Bike"); ("current_amount", VNull)]%string
     <> None -> e = TypeError).
Proof.
  assert (H0 : 0 <= 0) by lia.
  exact (conj H0 (conj eq_refl (conj eq_refl
           (update_progress_bad_record
              (Some [[("name", VStr "Bike"); ("current_amount", VNull)]%string])
              0 10 [("name", VStr "Bike"); ("current_amount", VNull)]%string
              H0 eq_refl eq_refl)))).
Defined.

(** ** The projection of the goals *)

Lemma get_progress_map strptime today file expenses_df :
  get_progress strptime today file expenses_df
  = map (fun goal =>
           match with_progress strptime today
                   (if negb (df_empty expenses_df)
                    then Qsum (map Amount (rows expenses_df)) else 0%Q)
                   (List.length (rows expenses_df)) goal with
           | Ok goal' => goal'
           | Raise _ => goal
           end) (load file).
Proof. unfold get_progress. now destruct (load file). Qed.

Lemma with_progress_keeps strptime today total n goal goal' k :
  with_progress strptime today total n goal = Ok goal' ->
  ~ derived_key k -> dict_get k goal' = dict_get k goal.
Proof.
  unfold with_progress, derived_key. intros H Hk.
  destruct (getitem "target_date" goal); cbn [bind] in H; [|discriminate].
  destruct (strptime_of strptime a "%Y-%m-%d"); cbn [bind] in H; [|discriminate].
  destruct (0 <? _); [|now injection H as <-].
  destruct (getitem "target_amount" goal); cbn [bind] in H; [|discriminate].
  destruct (getitem "current_amount" goal); cbn [bind] in H; [|discriminate].
  destruct (as_number a1); cbn [bind] in H; [|discriminate].
  destruct (as_number a2); cbn [bind] in H; [|discriminate].
  destruct (Qgtb total 0 && _); [destruct (Qgtb _ _)|]; injection H as <-;
    rewrite ?BudgetFacts.dict_get_set_other by (intuition congruence);
    reflexivity.
Qed.


Lemma with_progress_not_ahead strptime today total n goal :
  (forall days, days_until strptime today goal = Some days -> days <= 0) ->
  match with_progress strptime today total n goal with
  | Ok goal' => goal' = goal
  | Raise _ => True
  end.
Proof.
  unfold with_progress, days_until, getitem, strptime_of. intros H.
  destruct (dict_get "target_date" goal) as [v|]; cbn [bind]; [|exact I].
  destruct v as [|b|q|s]; cbn [as_string bind]; try exact I.
  destruct (strptime s "%Y-%m-%d"%string) as [t|]; cbn [bind]; [|exact I].
  specialize (H _ eq_refl).
  replace (0 <? toordinal (dt_date t) - toordinal today) with false
    by (symmetry; apply Z.ltb_ge; lia).
  reflexivity.
Qed.

(** X10. A goal whose target date is today or past, or whose target date
    [strptime] does not read, is returned as it is stored, without derived
    fields. *)
Theorem get_progress_not_ahead (strptime : strptime_fn) today file expenses_df i goal :
  nth_error (load file) i = Some goal ->
  (forall days, days_until strptime today goal = Some days -> days <= 0) ->
  nth_error (get_progress strptime today file expenses_df) i = Some goal.
Proof.
  intros Hi Hd. rewrite get_progress_map, nth_error_map, Hi. cbn [option_map].
  f_equal.
  pose proof (with_progress_not_ahead strptime today
                (if negb (df_empty expenses_df)
                 then Qsum (map Amount (rows expenses_df)) else 0%Q)
                (List.length (rows expenses_df)) goal Hd) as H.
  destruct (with_progress _ _ _ _ goal); [exact H | reflexivity].
Qed.

Lemma get_progress_not_ahead_witness :
  nth_error (load sample_goals) 0 = Some (sample_goal "Laptop" 100) /\
  (forall days,
      days_until Strict.strptime (mkdate 2024 12 26) (sample_goal "Laptop" 100)
      = Some days -> days <= 0) /\
  nth_error (get_progress Strict.strptime (mkdate 2024 12 26) sample_goals
               eleven_expenses) 0
  = Some (sample_goal "Laptop" 100).
Proof.
  assert (H : forall days,
             days_until Strict.strptime (mkdate 2024 12 26)
               (sample_goal "Laptop" 100) = Some days -> days <= 0)
    by (intros days [= <-]; vm_compute; discriminate).
  exact (conj eq_refl (conj H
           (get_progress_not_ahead Strict.strptime (mkdate 2024 12 26) sample_goals
              eleven_expenses 0 (sample_goal "Laptop" 100) eq_refl H))).
Defined.








End GoalMore.

(* ================================================================== *)
(** * BudgetManager: setting the budget and reading a damaged file *)

Module BudgetMore.
Import BudgetManager BudgetFacts.

Lemma dict_set_swap k1 k2 v w d :
  k1 <> k2 -> dict_has k1 d = true ->
  dict_set k1 v (dict_set k2 w d) = dict_set k2 w (dict_set k1 v d).
Proof.
  intros N. unfold dict_has.
  induction d as [|[k' v'] d IH]; cbn; [discriminate|].
  destruct (String.eqb_spec k1 k') as [->|N1].
  - intros _. destruct (String.eqb_spec k2 k') as [E|N2]; [congruence|].
    cbn. rewrite String.eqb_refl.
    destruct (String.eqb_spec k2 k'); [contradiction | reflexivity].
  - intros H. destruct (String.eqb_spec k2 k') as [->|N2]; cbn.
    + destruct (String.eqb_spec k1 k'); [contradiction|].
      now rewrite String.eqb_refl.
    + destruct (String.eqb_spec k1 k'); [contradiction|].
      destruct (String.eqb_spec k2 k'); [contradiction|].
      now rewrite IH.
Qed.

(** X13. Setting the weekly budget replaces the budget: after two
    settings the file is what the second alone would have left, and a
    field of the file other than [weekly_budget] and [week_start] keeps
    its value. *)
Theorem set_weekly_budget_replaces today1 amount1 today2 amount2 file :
  snd (set_weekly_budget today2 amount2
         (snd (set_weekly_budget today1 amount1 file)))
  = snd (set_weekly_budget today2 amount2 file) /\
  forall k, k <> "weekly_budget"%string -> k <> "week_start"%string ->
    dict_get k (load (snd (set_weekly_budget today2 amount2 file)))
    = dict_get k (load file).
Proof.
  unfold set_weekly_budget, save. cbn [snd load]. split.
  - f_equal.
    rewrite (dict_set_swap "weekly_budget" "week_start")
      by (try discriminate; apply ReminderFacts.dict_has_set).
    now rewrite !ReminderMore.dict_set_twice.
  - intros k H1 H2. now rewrite !dict_get_set_other by assumption.
Qed.

Section WithParsers.
Variable strptime : strptime_fn.
Variable parse : string -> option date.

(** X14. A budget file with a [weekly_budget] but without a [week_start]
    that [strptime] reads makes [get_budget_alerts] raise, whatever the
    expenses, even none: [KeyError] when the field is missing, [TypeError]
    when it is not a text, [ValueError] when it is not a date. *)
Theorem get_budget_alerts_needs_week_start file expenses_df :
  dict_has "weekly_budget" (load file) = true ->
  (forall s, dict_get "week_start" (load file) = Some (VStr s) ->
             strptime s "%Y-%m-%d"%string = None) ->
  exists e,
    get_budget_alerts strptime parse file expenses_df = Raise e /\
    (dict_get "week_start" (load file) = None -> e = KeyError "week_start") /\
    (forall s, dict_get "week_start" (load file) = Some (VStr s) ->
               e = ValueError) /\
    (forall v, dict_get "week_start" (load file) = Some v ->
               (forall s, v <> VStr s) -> e = TypeError).
Proof.
  intros Hb Hs. unfold get_budget_alerts. rewrite Hb. cbn [negb].
  unfold dict_has, getitem, strptime_of in *.
  destruct (dict_get "weekly_budget" (load file)) as [wb|]; [|discriminate].
  cbn [bind].
  destruct (dict_get "week_start" (load file)) as [v|]; cbn [bind].
  - destruct v as [|b|q|s]; cbn [as_string bind].
    1-3: eexists; split; [reflexivity|]; split; [discriminate|];
      split; [discriminate | reflexivity].
    rewrite (Hs s eq_refl). cbn [bind].
    eexists. split; [reflexivity|]. split; [discriminate|].
    split; [reflexivity|]. intros v [= <-] H. now destruct (H s).
  - eexists. split; [reflexivity|]. split; [reflexivity|].
    split; discriminate.
Qed.



End WithParsers.

Lemma get_budget_alerts_needs_week_start_witness :
  dict_has "weekly_budget" (load broken_budget) = true /\
  (forall s, dict_get "week_start" (load broken_budget) = Some (VStr s) ->
             Strict.strptime s "%Y-%m-%d"%string = None) /\
  exists e,
    get_budget_alerts Strict.strptime Strict.parse_date broken_budget
      (mkdf true []) = Raise e /\
    (dict_get "week_start" (load broken_budget) = None ->
     e = KeyError "week_start") /\
    (forall s, dict_get "week_start" (load broken_budget) = Some (VStr s) ->
               e = ValueError) /\
    (forall v, dict_get "week_start" (load broken_budget) = Some v ->
               (forall s, v <> VStr s) -> e = TypeError).
Proof.
  assert (H : forall s, dict_get "week_start" (load broken_budget) = Some (VStr s) ->
                        Strict.strptime s "%Y-%m-%d"%string = None)
    by (intros s; discriminate).
  exact (conj eq_refl (conj H
           (get_budget_alerts_needs_week_start Strict.strptime Strict.parse_date
              broken_budget (mkdf true []) eq_refl H))).
Defined.


(** After the budget is set to 300 on 2024-01-03, only the 300 spent that
    day count: the 500 of the day before and the 900 of December do not. *)
Example alerts_after_setting_sample :
  exists p,
    get_budget_alerts Strict.strptime Strict.parse_date
      (snd (set_weekly_budget (mkdate 2024 1 3) 300 annotated_budget)) sample_frame
    = Ok [BudgetExceeded (0 + 300) (VNum 300) p].
Proof. eexists. vm_compute. reflexivity. Qed.

End BudgetMore.

(* ================================================================== *)
(** * ExpenseManager: what the insights can say *)

Module ExpenseMore.
Import ExpenseManager CalendarFacts OrderFacts StrictFacts ExpenseFacts.

Lemma load_rows_length parse file :
  List.length (rows (load parse file)) = List.length (ledger_rows file).
Proof.
  destruct file as [df|]; cbn; [|reflexivity].
  destruct (has_Date df); cbn; [apply length_map | reflexivity].
Qed.

Lemma df_empty_iff parse file :
  df_empty (load parse file) = true <-> ledger_rows file = [].
Proof.
  pose proof (load_rows_length parse file) as H. unfold df_empty.
  destruct (rows (load parse file)), (ledger_rows file); cbn in H;
    split; intros; congruence.
Qed.

Lemma weekly_trend_kind weekly i :
  In i (weekly_trend weekly) -> exists increase, i = SpendingIncreased increase.
Proof.
  unfold weekly_trend. destruct (_ <=? _)%nat; [|intros []].
  destruct (Qgtb _ _); [intros [<-|[]]; eauto | intros []].
Qed.

Lemma monthly_change_kind this_month last_month_spent i :
  In i (monthly_change this_month last_month_spent) ->
  exists change, i = SpendingVsLastMonth change.
Proof.
  unfold monthly_change. destruct (_ && _); [|intros []].
  destruct (Qgtb _ _); [intros [<-|[]]; eauto | intros []].
Qed.

(** ** Grouping *)

Lemma Qsum_snoc l v : Qsum (l ++ [v]) = (Qsum l + v)%Q.
Proof. unfold Qsum. now rewrite fold_left_app. Qed.

Lemma group_add_keys {K : Type} (cmp : K -> K -> comparison) k v groups k0 :
  In k0 (map fst (group_add cmp k v groups)) ->
  k0 = k \/ In k0 (map fst groups).
Proof.
  induction groups as [|[k' s] groups IH]; cbn.
  - intros [<-|[]]. auto.
  - destruct (cmp k k'); cbn.
    + tauto.
    + intros [<-|[<-|H]]; auto.
    + intros [<-|H]; [auto | destruct (IH H); auto].
Qed.

Lemma group_add_nonneg {K : Type} (cmp : K -> K -> comparison) k v groups :
  (0 <= v)%Q ->
  Forall (fun kv => (0 <= snd kv)%Q) groups ->
  Forall (fun kv => (0 <= snd kv)%Q) (group_add cmp k v groups).
Proof.
  intros Hv. induction 1 as [|[k' s] groups Hs Hg IH]; cbn [group_add].
  - repeat constructor. exact Hv.
  - cbn [snd] in Hs. destruct (cmp k k').
    + constructor; [cbn [snd]; lra | exact Hg].
    + constructor; [exact Hv|]. now constructor.
    + now constructor.
Qed.

Lemma groupby_nonneg {K : Type} (cmp : K -> K -> comparison) (l : list (K * Q)) :
  Forall (fun kv => (0 <= snd kv)%Q) l ->
  Forall (fun kv => (0 <= snd kv)%Q) (groupby_sum cmp l).
Proof.
  unfold groupby_sum.
  assert (G : forall groups,
             Forall (fun kv => (0 <= snd kv)%Q) groups ->
             Forall (fun kv => (0 <= snd kv)%Q) l ->
             Forall (fun kv => (0 <= snd kv)%Q)
               (fold_left (fun g kv => group_add cmp (fst kv) (snd kv) g) l groups)).
  { induction l as [|[k v] l IH]; intros groups Hg Hl; cbn [fold_left]; [exact Hg|].
    inversion Hl as [|? ? Hv Hl']; subst.
    apply IH; [|exact Hl']. now apply group_add_nonneg. }
  intros H. apply G; [constructor | exact H].
Qed.

Section Grouping.
Context {K : Type} (cmp : K -> K -> comparison) (eqb : K -> K -> bool).
Hypothesis cmp_eq : forall a b, cmp a b = Eq -> a = b.
Hypothesis cmp_refl : forall a, cmp a a = Eq.
Hypothesis cmp_trans : forall a b c, cmp a b = Lt -> cmp b c = Lt -> cmp a c = Lt.
Hypothesis cmp_gt : forall a b, cmp a b = Gt -> cmp b a = Lt.
Hypothesis eqb_eq : forall a b, eqb a b = true <-> a = b.

Lemma group_total_snoc k l k' v :
  group_total eqb k (l ++ [(k', v)])
  = if eqb k' k then (group_total eqb k l + v)%Q else group_total eqb k l.
Proof.
  unfold group_total. rewrite filter_app. cbn [filter fst].
  destruct (eqb k' k).
  - rewrite map_app. cbn [map snd]. apply Qsum_snoc.
  - now rewrite app_nil_r.
Qed.

Lemma group_total_absent k l :
  ~ In k (map fst l) -> group_total eqb k l = 0%Q.
Proof.
  induction l as [|[k' v] l IH]; cbn [map fst In]; [reflexivity|].
  intros H. unfold group_total. cbn [filter fst].
  destruct (eqb k' k) eqn:E.
  - apply eqb_eq in E. tauto.
  - apply IH. tauto.
Qed.

Lemma lt_neq a b : cmp a b = Lt -> a <> b.
Proof. intros H ->. rewrite cmp_refl in H. discriminate. Qed.

Lemma group_add_ascending k v g :
  ascending cmp (map fst g) ->
  ascending cmp (map fst (group_add cmp k v g)).
Proof.
  induction g as [|[k' s] g IH]; cbn [group_add map fst ascending].
  - intros _. split; [constructor | exact I].
  - intros [Hf Hs]. destruct (cmp k k') eqn:E; cbn [map fst ascending].
    + split; assumption.
    + split; [|split; assumption].
      constructor; [exact E|].
      eapply Forall_impl; [|exact Hf]. intros a Ha. eapply cmp_trans; eauto.
    + split; [|auto]. rewrite Forall_forall in *. intros a Ha.
      apply group_add_keys in Ha. destruct Ha as [->|Ha]; [now apply cmp_gt | auto].
Qed.

Lemma group_add_keys_iff k v g k0 :
  In k0 (map fst (group_add cmp k v g)) <-> k0 = k \/ In k0 (map fst g).
Proof.
  split; [apply group_add_keys|].
  induction g as [|[k' s] g IH]; cbn [group_add map fst In].
  - intros [->|[]]. now left.
  - destruct (cmp k k') eqn:E; cbn [map fst In].
    + apply cmp_eq in E. subst k'. intros [->|[->|H]]; auto.
    + intros [->|[->|H]]; auto.
    + intros [->|[->|H]]; auto.
Qed.

Lemma group_add_values k v g k0 s0 :
  ascending cmp (map fst g) ->
  In (k0, s0) (group_add cmp k v g) ->
  (k0 <> k /\ In (k0, s0) g) \/
  (k0 = k /\ ((exists s, In (k, s) g /\ s0 = (s + v)%Q) \/
              (~ In k (map fst g) /\ s0 = v))).
Proof.
  induction g as [|[k' s] g IH]; cbn [group_add map fst ascending].
  - intros _ [H|[]]. injection H as <- <-. right. split; [reflexivity|].
    right. split; [intros [] | reflexivity].
  - intros [Hf Hs]. rewrite Forall_forall in Hf.
    destruct (cmp k k') eqn:E.
    + apply cmp_eq in E. subst k'. intros [H|H].
      * injection H as <- <-. right. split; [reflexivity|]. left.
        exists s. split; [now left | reflexivity].
      * left. split; [|now right]. intros ->.
        apply (in_map fst) in H. apply Hf in H. cbn [fst] in H.
        rewrite cmp_refl in H. discriminate.
    + intros [H|H].
      * injection H as <- <-. right. split; [reflexivity|]. right.
        split; [|reflexivity]. intros [<-|Hk].
        -- rewrite cmp_refl in E. discriminate.
        -- apply Hf in Hk. pose proof (cmp_trans _ _ _ E Hk) as C.
           rewrite cmp_refl in C. discriminate.
      * left. split; [|exact H]. intros ->. destruct H as [H|H].
        -- injection H as <- <-. rewrite cmp_refl in E. discriminate.
        -- apply (in_map fst) in H. apply Hf in H. cbn [fst] in H.
           pose proof (cmp_trans _ _ _ E H) as C.
           rewrite cmp_refl in C. discriminate.
    + intros [H|H].
      * injection H as <- <-. left. split; [|now left]. intros ->.
        rewrite cmp_refl in E. discriminate.
      * destruct (IH Hs H) as [[Hn Hi] | [-> [(s1 & Hi & ->) | [Hn ->]]]].
        -- left. split; [exact Hn | now right].
        -- right. split; [reflexivity|]. left. exists s1.
           split; [now right | reflexivity].
        -- right. split; [reflexivity|]. right. split; [|reflexivity].
           intros [<-|Hk]; [rewrite cmp_refl in E; discriminate | auto].
Qed.

(** What [groupby(...).sum()] returns: the keys in ascending order, each
    key of the frame once, with the sum of its rows. *)
Lemma groupby_spec (l : list (K * Q)) :
  ascending cmp (map fst (groupby_sum cmp l)) /\
  (forall k, In k (map fst (groupby_sum cmp l)) <-> In k (map fst l)) /\
  (forall k s, In (k, s) (groupby_sum cmp l) -> (s == group_total eqb k l)%Q).
Proof.
  unfold groupby_sum.
  assert (G : forall rest g done,
    ascending cmp (map fst g) /\
    (forall k, In k (map fst g) <-> In k (map fst done)) /\
    (forall k s, In (k, s) g -> (s == group_total eqb k done)%Q) ->
    let g' := fold_left (fun g kv => group_add cmp (fst kv) (snd kv) g) rest g in
    ascending cmp (map fst g') /\
    (forall k, In k (map fst g') <-> In k (map fst (done ++ rest))) /\
    (forall k s, In (k, s) g' -> (s == group_total eqb k (done ++ rest))%Q)).
  { induction rest as [|[k v] rest IH]; intros g done (Ha & Hk & Hv); cbv zeta.
    - cbn [fold_left]. rewrite app_nil_r. auto.
    - cbn [fold_left fst snd].
      replace (done ++ (k, v) :: rest) with ((done ++ [(k, v)]) ++ rest)
        by (rewrite <- app_assoc; reflexivity).
      apply IH. split; [|split].
      + now apply group_add_ascending.
      + intros k0. rewrite group_add_keys_iff, map_app, in_app_iff, Hk.
        cbn [map fst In]. intuition congruence.
      + intros k0 s0 Hin. rewrite group_total_snoc.
        destruct (group_add_values _ _ _ _ _ Ha Hin)
          as [[Hn Hi] | [-> [(s1 & Hi & ->) | [Hn ->]]]].
        * destruct (eqb k k0) eqn:E; [apply eqb_eq in E; congruence|].
          now apply Hv.
        * rewrite (proj2 (eqb_eq k k) eq_refl). rewrite (Hv _ _ Hi). reflexivity.
        * rewrite (proj2 (eqb_eq k k) eq_refl).
          rewrite group_total_absent by (now rewrite <- Hk). lra. }
  apply (G l [] []). split; [exact I|]. split; [reflexivity|]. intros k s [].
Qed.

End Grouping.

Lemma group_total_where {K : Type} (eqb : K -> K -> bool) (key : date -> K) k
  (l : list (date * Q)) :
  group_total eqb k (map (fun r => (key (fst r), snd r)) l)
  = sum_where (fun d => eqb (key d) k) l.
Proof.
  unfold group_total, sum_where. f_equal.
  induction l as [|[d a] l IH]; cbn [map filter fst snd]; [reflexivity|].
  destruct (eqb (key d) k); cbn [map snd]; now rewrite IH.
Qed.



Lemma ascii_compare_refl a : Ascii.compare a a = Eq.
Proof. unfold Ascii.compare. apply N.compare_refl. Qed.

Lemma ascii_compare_trans a b c :
  Ascii.compare a b = Lt -> Ascii.compare b c = Lt -> Ascii.compare a c = Lt.
Proof. unfold Ascii.compare. rewrite !N.compare_lt_iff. lia. Qed.

Lemma string_compare_refl a : String.compare a a = Eq.
Proof.
  induction a as [|x a IH]; cbn [String.compare]; [reflexivity|].
  now rewrite ascii_compare_refl.
Qed.

Lemma string_compare_eq a b : String.compare a b = Eq -> a = b.
Proof. apply String.compare_eq_iff. Qed.

Lemma string_compare_gt a b : String.compare a b = Gt -> String.compare b a = Lt.
Proof. intros H. rewrite String.compare_antisym, H. reflexivity. Qed.

Lemma string_compare_trans a : forall b c,
  String.compare a b = Lt -> String.compare b c = Lt -> String.compare a c = Lt.
Proof.
  induction a as [|x a IH]; intros [|y b] [|z c]; cbn [String.compare];
    try discriminate; try reflexivity.
  destruct (Ascii.compare x y) eqn:Exy; try discriminate;
  destruct (Ascii.compare y z) eqn:Eyz; try discriminate.
  - apply Ascii.compare_eq_iff in Exy, Eyz. subst.
    rewrite ascii_compare_refl. apply IH.
  - apply Ascii.compare_eq_iff in Exy. subst. now rewrite Eyz.
  - apply Ascii.compare_eq_iff in Eyz. subst. now rewrite Exy.
  - now rewrite (ascii_compare_trans _ _ _ Exy Eyz).
Qed.

(** ** The largest group *)

Lemma idxmax_from_max {K : Type} (l : list (K * Q)) : forall best bestv,
  exists v,
    ((idxmax_from best bestv l = best /\ v = bestv) \/
     In (idxmax_from best bestv l, v) l) /\
    (bestv <= v)%Q /\ Forall (fun kv => (snd kv <= v)%Q) l.
Proof.
  induction l as [|[k1 v1] l IH]; intros best bestv; cbn [idxmax_from].
  - exists bestv. split; [now left|]. split; [lra | constructor].
  - destruct (Qgtb v1 bestv) eqn:E.
    + apply Qgtb_true in E. destruct (IH k1 v1) as (v & Hin & Hle & Hall).
      exists v. split; [|split; [lra|constructor; [exact Hle | exact Hall]]].
      right. destruct Hin as [[-> ->]|Hin]; [now left | now right].
    + assert (Hle1 : (v1 <= bestv)%Q).
      { apply Qnot_lt_le. intros H. apply Qgtb_true in H. congruence. }
      destruct (IH best bestv) as (v & Hin & Hle & Hall).
      exists v. split; [|split; [exact Hle|constructor; [cbn [snd]; lra | exact Hall]]].
      destruct Hin as [[-> ->]|Hin]; [now left | right; now right].
Qed.

Lemma idxmax_max {K : Type} (l : list (K * Q)) k :
  idxmax l = Some k ->
  exists v, In (k, v) l /\ Forall (fun kv => (snd kv <= v)%Q) l.
Proof.
  destruct l as [|[k0 v0] l]; cbn [idxmax]; [discriminate|].
  intros [= <-]. destruct (idxmax_from_max l k0 v0) as (v & Hin & Hle & Hall).
  exists v. split.
  - destruct Hin as [[-> ->]|Hin]; [now left | now right].
  - constructor; [exact Hle | exact Hall].
Qed.

(** ** The messages *)

(** The insights of a ledger with a Date column and rows. *)
Lemma insights_with_dates parse today file l :
  ledger_rows file <> [] ->
  has_Date (load parse file) = true ->
  get_spending_insights parse today file = Ok l ->
  exists change,
    l = ((match idxmax (groupby_sum String.compare
                           (map (fun r => (day_name (fst r), snd r))
                              (dated_expenses parse file))) with
          | Some highest_day => [HighestSpendingDay highest_day]
          | None => []
          end)
         ++ weekly_trend (groupby_sum Z.compare
                            (map (fun r => (iso_week (fst r), snd r))
                               (dated_expenses parse file))))
        ++ change /\
    (forall i, In i change -> exists c, i = SpendingVsLastMonth c).
Proof.
  intros Hrows Hd. unfold get_spending_insights.
  destruct (df_empty (load parse file)) eqn:E;
    [apply df_empty_iff in E; contradiction|].
  rewrite Hd. cbn [negb].
  replace (dated (rows (to_datetime parse (load parse file))))
    with (dated_expenses parse file)
    by (unfold dated_expenses; now rewrite Hd).
  destruct (date_add_days (replace_day1 today) (-1)) as [last_day|];
    cbn [bind]; [|discriminate].
  intros [= <-]. eexists. split; [reflexivity|].
  intros i. apply monthly_change_kind.
Qed.

Lemma dated_expenses_without_dates parse file :
  has_Date (load parse file) = false -> dated_expenses parse file = [].
Proof. intros H. unfold dated_expenses. now rewrite H. Qed.

Lemma dated_expenses_without_rows parse file :
  ledger_rows file = [] -> dated_expenses parse file = [].
Proof.
  intros H. unfold dated_expenses.
  destruct (has_Date (load parse file)); [|reflexivity].
  pose proof (load_rows_length parse file) as L. rewrite H in L.
  unfold to_datetime; cbn [rows].
  destruct (rows (load parse file)); [reflexivity | discriminate].
Qed.

(** The three shapes of an answer. *)
Lemma insights_shape parse today file l :
  get_spending_insights parse today file = Ok l ->
  (l = [NoExpensesYet] /\ ledger_rows file = [] /\ dated_expenses parse file = []) \/
  (l = [AddMoreExpenses] /\ ledger_rows file <> [] /\ dated_expenses parse file = []) \/
  (ledger_rows file <> [] /\
   exists change,
     l = ((match idxmax (groupby_sum String.compare
                           (map (fun r => (day_name (fst r), snd r))
                              (dated_expenses parse file))) with
           | Some highest_day => [HighestSpendingDay highest_day]
           | None => []
           end)
          ++ weekly_trend (groupby_sum Z.compare
                             (map (fun r => (iso_week (fst r), snd r))
                                (dated_expenses parse file))))
         ++ change /\
     (forall i, In i change -> exists c, i = SpendingVsLastMonth c)).
Proof.
  intros Hl. destruct (ledger_rows file) as [|r0 rest] eqn:Hr.
  { left. rewrite (dated_expenses_without_rows parse file Hr).
    apply (df_empty_iff parse) in Hr. unfold get_spending_insights in Hl.
    rewrite Hr in Hl. injection Hl as <-. auto. }
  assert (Hrows : ledger_rows file <> []) by (rewrite Hr; discriminate).
  rewrite <- Hr. right.
  destruct (has_Date (load parse file)) eqn:Hd.
  - right. split; [exact Hrows|].
    exact (insights_with_dates parse today file l Hrows Hd Hl).
  - left. rewrite (dated_expenses_without_dates parse file Hd).
    unfold get_spending_insights in Hl.
    destruct (df_empty (load parse file)) eqn:E;
      [apply df_empty_iff in E; contradiction|].
    rewrite Hd in Hl. cbn [negb] in Hl. injection Hl as <-. auto.
Qed.




(** X18. The highest spending day is named exactly when some expense has
    a date; the day named is the day of the week of a dated expense, and
    no day of the week of a dated expense has a larger total. *)
Theorem highest_day_is_highest parse today file :
  match get_spending_insights parse today file with
  | Ok l =>
      ((exists day, In (HighestSpendingDay day) l)
       <-> dated_expenses parse file <> []) /\
      (forall day, In (HighestSpendingDay day) l ->
         (exists d amount,
             In (d, amount) (dated_expenses parse file) /\ day = day_name d) /\
         (forall d amount,
             In (d, amount) (dated_expenses parse file) ->
             (weekday_total parse (day_name d) file
              <= weekday_total parse day file)%Q))
  | Raise _ => True
  end.
Proof.
  destruct (get_spending_insights parse today file) as [l|] eqn:Hl; [|exact I].
  destruct (insights_shape parse today file l Hl)
    as [(-> & _ & Z) | [(-> & _ & Z) | (_ & change & -> & Hc)]].
  1,2: rewrite Z; split;
    [split; [intros [day [H|[]]]; discriminate | congruence]
    | intros day [H|[]]; discriminate].
  set (kvs := map (fun r => (day_name (fst r), snd r)) (dated_expenses parse file)).
  assert (Only : forall day,
            In (HighestSpendingDay day)
              ((match idxmax (groupby_sum String.compare kvs) with
                | Some highest_day => [HighestSpendingDay highest_day]
                | None => []
                end ++ weekly_trend (groupby_sum Z.compare
                          (map (fun r => (iso_week (fst r), snd r))
                             (dated_expenses parse file)))) ++ change) ->
            idxmax (groupby_sum String.compare kvs) = Some day).
  { intros day. rewrite !in_app_iff. intros [[H|H]|H].
    - destruct (idxmax _); [destruct H as [[= ->]|[]]; reflexivity | destruct H].
    - apply weekly_trend_kind in H. destruct H as [? H]. discriminate.
    - apply Hc in H. destruct H as [? H]. discriminate. }
  destruct (groupby_spec String.compare String.eqb string_compare_eq
              string_compare_refl string_compare_trans string_compare_gt
              String.eqb_eq kvs) as (_ & Keys & Sums).
  assert (Kvs : forall name, In name (map fst kvs) <->
                  exists d amount, In (d, amount) (dated_expenses parse file)
                                   /\ name = day_name d).
  { intros name. unfold kvs. rewrite map_map. cbn [fst]. rewrite in_map_iff. split.
    - intros ([d amount] & E & Hin). exists d, amount. cbn [fst] in E. auto.
    - intros (d & amount & Hin & ->). exists (d, amount). auto. }
  split.
  - split.
    + intros [day H]. apply Only, idxmax_max in H. destruct H as (v & Hin & _).
      apply (in_map fst) in Hin. apply Keys, Kvs in Hin.
      destruct Hin as (d & amount & Hin & _). intros E. rewrite E in Hin. exact Hin.
    + intros Hne. destruct (idxmax (groupby_sum String.compare kvs)) as [day|] eqn:Ei.
      * exists day. cbn. now left.
      * exfalso. unfold idxmax in Ei.
        destruct (groupby_sum String.compare kvs) as [|[k v] g] eqn:Eg; [|discriminate].
        assert (Hd : exists d amount, In (d, amount) (dated_expenses parse file)).
        { clear - Hne.
          destruct (dated_expenses parse file) as [|[d amount] rest] eqn:Ed;
            [congruence|]. exists d, amount. now left. }
        destruct Hd as (d & amount & Hd).
        assert (Hin : In (day_name d) (map fst kvs))
          by (apply Kvs; exists d, amount; split; [exact Hd | reflexivity]).
        apply Keys in Hin. exact Hin.
  - intros day H. apply Only, idxmax_max in H. destruct H as (v & Hin & Hall).
    split.
    + apply (in_map fst) in Hin. now apply Keys, Kvs in Hin.
    + intros d amount Hd.
      assert (Hk : In (day_name d) (map fst (groupby_sum String.compare kvs))).
      { apply Keys, Kvs. eauto. }
      apply in_map_iff in Hk. destruct Hk as ([k s] & Ek & Hs). cbn [fst] in Ek.
      subst k. rewrite Forall_forall in Hall. pose proof (Hall _ Hs) as Hle.
      cbn [snd] in Hle. apply Sums in Hs, Hin. unfold kvs in Hs, Hin.
      rewrite group_total_where in Hs, Hin.
      unfold weekday_total. rewrite <- Hs, <- Hin. exact Hle.
Qed.

(** ** The weekly trend *)

Lemma dated_amounts (P : Q -> Prop) (f : cell -> cell) (l : list row) :
  Forall (fun r => P (Amount r)) l ->
  Forall (fun r => P (snd r)) (dated (map (with_Date f) l)).
Proof.
  induction 1 as [|r l Hr _ IH]; cbn [map dated]; [constructor|].
  destruct (Date (with_Date f r)); [assumption | now constructor | assumption].
Qed.

Lemma dated_expenses_amounts (P : Q -> Prop) parse file :
  Forall (fun r => P (Amount r)) (ledger_rows file) ->
  Forall (fun r => P (snd r)) (dated_expenses parse file).
Proof.
  intros H. unfold dated_expenses.
  destruct (has_Date (load parse file)) eqn:Hd; [|constructor].
  unfold to_datetime. cbn [rows]. apply dated_amounts.
  destruct file as [df|]; cbn [load ledger_rows] in *; [|constructor].
  destruct (has_Date df); [|exact H].
  unfold to_datetime. cbn [rows]. rewrite Forall_map.
  eapply Forall_impl; [|exact H]. intros r Hr. exact Hr.
Qed.

Lemma nth_nonneg (l : list Q) n :
  Forall (fun v => (0 <= v)%Q) l -> (0 <= nth n l 0)%Q.
Proof.
  intros H. revert n. induction H as [|v l Hv _ IH]; intros [|n]; cbn [nth];
    auto; lra.
Qed.

Lemma Qeqb0_true a : Qeqb0 a = true <-> (a == 0)%Q.
Proof. unfold Qeqb0. apply Qeq_bool_iff. Qed.

Lemma weekly_trend_sign weekly increase :
  Forall (fun kv => (0 <= snd kv)%Q) weekly ->
  In (SpendingIncreased increase) (weekly_trend weekly) ->
  increase = PosInf \/ exists q, increase = Fin q /\ (0 < q)%Q.
Proof.
  intros Hw. unfold weekly_trend. destruct (_ <=? _)%nat; [|intros []].
  assert (H2 : (0 <= iloc_neg 2 weekly)%Q).
  { unfold iloc_neg. apply nth_nonneg. rewrite Forall_map. exact Hw. }
  destruct (Qgtb _ _) eqn:G; [|intros []]. apply Qgtb_true in G.
  intros [[= <-]|[]]. unfold fdiv.
  destruct (Qeqb0 (iloc_neg 2 weekly)) eqn:Z.
  - apply Qeqb0_true in Z.
    replace (Qgtb (iloc_neg 1 weekly - iloc_neg 2 weekly) 0) with true
      by (symmetry; apply Qgtb_true; lra).
    now left.
  - right. eexists. split; [reflexivity|].
    assert (Hpos : (0 < iloc_neg 2 weekly)%Q).
    { destruct (Qlt_le_dec 0 (iloc_neg 2 weekly)) as [|Hle]; [assumption|].
      assert (E : (iloc_neg 2 weekly == 0)%Q) by lra.
      apply Qeqb0_true in E. congruence. }
    apply Qmult_lt_0_compat; [|lra].
    unfold Qdiv. apply Qmult_lt_0_compat; [lra|].
    now apply Qinv_lt_0_compat.
Qed.

(** X19. When no amount of the ledger is negative, a reported weekly
    increase is a positive percentage, or infinite when the earlier week
    sums to zero; it is never negative and never undefined. *)
Theorem weekly_increase_positive parse today file :
  Forall (fun r => (0 <= Amount r)%Q) (ledger_rows file) ->
  match get_spending_insights parse today file with
  | Ok l =>
      forall increase,
        In (SpendingIncreased increase) l ->
        increase = PosInf \/ exists q, increase = Fin q /\ (0 < q)%Q
  | Raise _ => True
  end.
Proof.
  intros Hpos.
  destruct (get_spending_insights parse today file) as [l|] eqn:Hl; [|exact I].
  intros increase Hin.
  destruct (insights_shape parse today file l Hl)
    as [(-> & _ & _) | [(-> & _ & _) | (_ & change & -> & Hc)]].
  1,2: destruct Hin as [H|[]]; discriminate.
  rewrite !in_app_iff in Hin. destruct Hin as [[H|H]|H].
  - destruct (idxmax _); [destruct H as [H|[]]; discriminate | destruct H].
  - revert H. apply weekly_trend_sign, groupby_nonneg.
    rewrite Forall_map. cbn [snd].
    exact (dated_expenses_amounts (fun a => (0 <= a)%Q) parse file Hpos).
  - apply Hc in H. destruct H as [? H]. discriminate.
Qed.

Lemma weekly_increase_positive_witness :
  Forall (fun r => (0 <= Amount r)%Q) (ledger_rows january_ledger) /\
  match get_spending_insights Strict.parse_date (mkdate 2024 1 20) january_ledger with
  | Ok l =>
      forall increase,
        In (SpendingIncreased increase) l ->
        increase = PosInf \/ exists q, increase = Fin q /\ (0 < q)%Q
  | Raise _ => True
  end.
Proof.
  assert (H : Forall (fun r => (0 <= Amount r)%Q) (ledger_rows january_ledger))
    by (repeat constructor; cbn; discriminate).
  exact (conj H (weekly_increase_positive Strict.parse_date (mkdate 2024 1 20)
                   january_ledger H)).
Defined.

(** ** Weeks of one ISO year *)







Section WithParser.
Variable parse : string -> option date.
Hypothesis parse_valid : forall s d, parse s = Some d -> valid_date d.


End WithParser.


End ExpenseMore.

(* ================================================================== *)
(** * The restaurant filter: the command-line run and the suggestions *)

Module RestaurantMore.
Import Restaurant RestaurantFacts.








Section WithLibrary.
Variable re_compile : re_compile_fn.
Variables float_of to_float : string -> option Q.
Hypothesis literal : literal_patterns re_compile.


End WithLibrary.

(** X23. Every occasion has a first suggestion, so the page can always
    take [suggestions[0]]: an occasion of the select box has four
    suggestions, any other text the three default ones.  The first
    suggestion has no regular-expression character, and the search it
    starts on a numeric rating column keeps the rows of the dashboard
    search for that word. *)
Theorem occasion_search (re_compile : re_compile_fn) occasion :
  literal_patterns re_compile ->
  (In occasion occasions -> List.length (get_occasion_suggestions occasion) = 4%nat) /\
  (~ In occasion occasions ->
   get_occasion_suggestions occasion = ["Indian"; "Chinese"; "Italian"]%string) /\
  exists first others,
    get_occasion_suggestions occasion = first :: others /\
    plain first = true /\
    forall df min_rating,
      Forall numeric_rating df ->
      dashboard_search re_compile df first min_rating
      = Ok (filter (dashboard_keeps first min_rating) df).
Proof.
  intros literal. unfold get_occasion_suggestions, occasions.
  repeat match goal with
         | |- context [String.eqb occasion ?s] =>
             destruct (String.eqb_spec occasion s) as [->|?]
         end.
  all: split; [first [intros _; reflexivity | cbn [In]; intuition congruence]|].
  all: split; [intros H; try reflexivity; exfalso; apply H; cbn [In]; tauto|].
  all: do 2 eexists; split; [reflexivity|]; split; [reflexivity|].
  all: intros df min_rating Hn;
       apply (dashboard_search_plain re_compile literal); [reflexivity | exact Hn].
Qed.



Lemma occasion_search_witness :
  literal_patterns re_compile_plain /\
  (In "Date Night"%string occasions ->
   List.length (get_occasion_suggestions "Date Night") = 4%nat) /\
  (~ In "Date Night"%string occasions ->
   get_occasion_suggestions "Date Night" = ["Indian"; "Chinese"; "Italian"]%string) /\
  exists first others,
    get_occasion_suggestions "Date Night" = first :: others /\
    plain first = true /\
    forall df min_rating,
      Forall numeric_rating df ->
      dashboard_search re_compile_plain df first min_rating
      = Ok (filter (dashboard_keeps first min_rating) df).
Proof.
  exact (conj re_compile_plain_literal
           (occasion_search re_compile_plain "Date Night"%string
              re_compile_plain_literal)).
Defined.

End RestaurantMore.

(* ================================================================== *)
(** * The Expenses page: the progress of a goal *)

Module PageMore.
Import GoalManager GoalFacts GoalMore ExpenseFacts.

Lemma add_to_current_funded goal_name target amount_added goal goal' :
  funded goal_name target goal -> (0 <= amount_added)%Q ->
  add_to_current amount_added goal = Ok goal' -> funded goal_name target goal'.
Proof.
  intros (Hn & Ht & saved & Hc & Hs) Ha. unfold add_to_current, getitem.
  rewrite Hc. cbn [bind as_number]. intros [= <-]. split; [|split].
  - rewrite BudgetFacts.dict_get_set_other by discriminate. exact Hn.
  - rewrite BudgetFacts.dict_get_set_other by discriminate. exact Ht.
  - exists (saved + amount_added)%Q. split; [apply dict_get_set | lra].
Qed.

Lemma update_progress_funded goal_name target k goal_index amount_added file :
  (exists goal, nth_error (load file) k = Some goal /\ funded goal_name target goal) ->
  (0 <= amount_added)%Q ->
  exists goal,
    nth_error (load (snd (update_progress goal_index amount_added file))) k
    = Some goal /\ funded goal_name target goal.
Proof.
  intros (goal & Hk & Hf) Ha. unfold update_progress.
  destruct ((0 <=? goal_index) && _) eqn:R; cbn [snd]; [|eauto].
  destruct (nth_error (load file) (Z.to_nat goal_index)) as [g|] eqn:Hg;
    cbn [snd]; [|eauto].
  destruct (add_to_current amount_added g) as [g'|e] eqn:E; cbn [snd save load];
    [|eauto].
  destruct (Nat.eq_dec (Z.to_nat goal_index) k) as [Ek|N].
  - rewrite Ek in *. rewrite Hk in Hg. injection Hg as <-. exists g'. split.
    + apply list_set_here. apply nth_error_Some. congruence.
    + eapply add_to_current_funded; eauto.
  - exists goal. split; [|exact Hf]. now rewrite list_set_other.
Qed.

Lemma update_all_funded goal_name target k calls : forall file,
  (exists goal, nth_error (load file) k = Some goal /\ funded goal_name target goal) ->
  Forall (fun call => (0 <= snd call)%Q) calls ->
  exists goal,
    nth_error (load (snd (update_all calls file))) k = Some goal /\
    funded goal_name target goal.
Proof.
  induction calls as [|[i a] calls IH]; intros file Hk Hpos; cbn [update_all].
  - exact Hk.
  - inversion Hpos as [|? ? Ha Hrest]; subst. cbn [snd] in Ha.
    pose proof (update_progress_funded goal_name target k i a file Hk Ha) as H1.
    destruct (update_progress i a file) as [[[]|e] file']; cbn [snd] in *.
    + now apply IH.
    + exact H1.
Qed.

Lemma get_progress_funded strptime today file expenses_df goal_name target k :
  (exists goal, nth_error (load file) k = Some goal /\ funded goal_name target goal) ->
  exists goal,
    nth_error (get_progress strptime today file expenses_df) k = Some goal /\
    funded goal_name target goal.
Proof.
  intros (goal & Hk & Hf).
  rewrite get_progress_map, nth_error_map, Hk. cbn [option_map].
  eexists. split; [reflexivity|].
  destruct (with_progress _ _ _ _ goal) as [goal'|] eqn:E; [|exact Hf].
  destruct Hf as (Hn & Ht & saved & Hc & Hs).
  assert (K : forall key,
            key = "name"%string \/ key = "target_amount"%string \/
            key = "current_amount"%string ->
            dict_get key goal' = dict_get key goal).
  { intros key Hkey. eapply with_progress_keeps; [exact E|].
    unfold derived_key. destruct Hkey as [-> | [-> | ->]]; intuition discriminate. }
  split; [rewrite K by auto; exact Hn|].
  split; [rewrite K by auto; exact Ht|].
  exists saved. split; [rewrite K by auto; exact Hc | exact Hs].
Qed.

Lemma goal_progress_funded goal_name target goal :
  (0 < target)%Q -> funded goal_name target goal ->
  exists p saved,
    goal_progress goal = Percent p /\ (0 <= p <= 100)%Q /\
    current_amount_of goal = Some saved /\
    (p < 100 <-> saved < target)%Q /\
    (p < 100 -> p == saved / target * 100)%Q.
Proof.
  intros Hpos (_ & Ht & saved & Hc & Hs).
  unfold goal_progress, getitem, current_amount_of.
  rewrite Hc, Ht. cbn [as_number].
  destruct (Qeqb0 target) eqn:Z.
  { apply Qeq_bool_iff in Z. lra. }
  assert (Hinv : (0 < / target)%Q) by now apply Qinv_lt_0_compat.
  assert (Hratio : (0 <= saved / target * 100)%Q).
  { apply Qmult_le_0_compat; [|lra]. unfold Qdiv.
    apply Qmult_le_0_compat; lra. }
  assert (Hlt : (saved / target * 100 < 100 <-> saved < target)%Q).
  { split; intros H.
    - destruct (Qlt_le_dec saved target) as [|Hge]; [assumption|exfalso].
      assert ((1 <= saved / target)%Q) by (apply Qle_shift_div_l; lra).
      lra.
    - assert ((saved / target < 1)%Q) by (apply Qlt_shift_div_r; lra). lra. }
  eexists. exists saved. split; [reflexivity|].
  destruct (Qgtb 100 (saved / target * 100)) eqn:G.
  - apply Qgtb_true in G. split; [lra|]. split; [reflexivity|].
    split; [exact Hlt | reflexivity].
  - assert (Hge : (100 <= saved / target * 100)%Q).
    { apply Qnot_lt_le. intros H. apply Qgtb_true in H. congruence. }
    split; [lra|]. split; [reflexivity|]. split.
    + split; [lra | intros H; apply Hlt in H; lra].
    + lra.
Qed.

(** X24. The progress shown for a goal set on the page stays between 0
    and 100 percent: after [add] with a positive target and any sequence
    of [update_progress] calls with non-negative amounts (run until one
    of them raises, if one does), whatever else the file holds, the goal
    is still at its position in [get_progress], the progress line neither
    divides by zero nor fails, and its value is [saved / target * 100]
    capped at 100, below 100 exactly while less than the target is saved. *)
Theorem page_progress_in_range (strptime : strptime_fn) today goal_name
  target_amount timeframe_months file file1 calls later expenses_df :
  (0 < target_amount)%Q ->
  Forall (fun call => (0 <= snd call)%Q) calls ->
  add today goal_name target_amount timeframe_months file = (Ok tt, file1) ->
  exists goal p saved,
    nth_error (get_progress strptime later (snd (update_all calls file1))
                 expenses_df)
      (List.length (load file)) = Some goal /\
    dict_get "name" goal = Some (VStr goal_name) /\
    goal_progress goal = Percent p /\ (0 <= p <= 100)%Q /\
    current_amount_of goal = Some saved /\
    (p < 100 <-> saved < target_amount)%Q /\
    (p < 100 -> p == saved / target_amount * 100)%Q.
Proof.
  intros Hpos Hcalls Hadd. unfold add in Hadd.
  destruct (date_add_days today (30 * timeframe_months)) as [target_date|];
    [|discriminate].
  injection Hadd as <-.
  set (new_goal := [("name", VStr goal_name);
                    ("target_amount", VNum target_amount);
                    ("current_amount", VNum 0);
                    ("timeframe_months", VNum (inject_Z timeframe_months));
                    ("created", VStr (isoformat today));
                    ("target_date", VStr (isoformat target_date))]%string).
  assert (H0 : exists goal,
             nth_error (load (save (load file ++ [new_goal])))
               (List.length (load file)) = Some goal /\
             funded goal_name target_amount goal).
  { exists new_goal. cbn [load save]. split.
    - rewrite nth_error_app2 by lia. now rewrite Nat.sub_diag.
    - split; [reflexivity|]. split; [reflexivity|].
      exists 0%Q. split; [reflexivity | lra]. }
  pose proof (update_all_funded goal_name target_amount _ calls _ H0 Hcalls) as H1.
  destruct (get_progress_funded strptime later _ expenses_df _ _ _ H1)
    as (goal & Hk & Hf).
  destruct (goal_progress_funded goal_name target_amount goal Hpos Hf)
    as (p & saved & Hp & Hr & Hc & Hlt & Hval).
  exists goal, p, saved. split; [exact Hk|]. split; [exact (proj1 Hf)|].
  split; [exact Hp|]. split; [exact Hr|]. split; [exact Hc|].
  split; [exact Hlt | exact Hval].
Qed.

Lemma page_progress_in_range_witness :
  (0 < 12000)%Q /\
  Forall (fun call => (0 <= snd call)%Q) [(2, 9000%Q); (0, 50%Q); (2, 6000%Q)] /\
  add (mkdate 2024 1 1) "Bike" 12000 6 sample_goals
  = (Ok tt, snd (add (mkdate 2024 1 1) "Bike" 12000 6 sample_goals)) /\
  exists goal p saved,
    nth_error
      (get_progress Strict.strptime (mkdate 2024 2 1)
         (snd (update_all [(2, 9000%Q); (0, 50%Q); (2, 6000%Q)]
                 (snd (add (mkdate 2024 1 1) "Bike" 12000 6 sample_goals))))
         sample_frame)
      (List.length (load sample_goals)) = Some goal /\
    dict_get "name" goal = Some (VStr "Bike") /\
    goal_progress goal = Percent p /\ (0 <= p <= 100)%Q /\
    current_amount_of goal = Some saved /\
    (p < 100 <-> saved < 12000)%Q /\
    (p < 100 -> p == saved / 12000 * 100)%Q.
Proof.
  assert (H1 : (0 < 12000)%Q) by reflexivity.
  assert (H2 : Forall (fun call => (0 <= snd call)%Q)
                 [(2, 9000%Q); (0, 50%Q); (2, 6000%Q)])
    by (repeat constructor; discriminate).
  assert (H3 : add (mkdate 2024 1 1) "Bike" 12000 6 sample_goals
               = (Ok tt, snd (add (mkdate 2024 1 1) "Bike" 12000 6 sample_goals)))
    by (vm_compute; reflexivity).
  exact (conj H1 (conj H2 (conj H3
           (page_progress_in_range Strict.strptime (mkdate 2024 1 1) "Bike"
              12000 6 sample_goals _ [(2, 9000%Q); (0, 50%Q); (2, 6000%Q)]
              (mkdate 2024 2 1) sample_frame H1 H2 H3)))).
Defined.

End PageMore.
